(** * cnv.py: copy-number ratio engine of [cnv_script_karim]

    A shallow embedding of the computational part of [cnv_script_karim]
    (src/cnv.py, lines 496-975): coverage matrix, self-excluded
    normalisation, ratio against the control baseline, threshold branches
    at amplicon and at gene level, gene means, anomaly text and plot groups;
    and of what surrounds it: the cells and names taken from the raw files
    (lines 367-527), the user preferences (lines 42-66) and the window that
    launches the script (lines 69-274).

    Conventions of the embedding.
    - A Python exception is [Raise] of its class name.
    - A Python [dict] is an association list in insertion order ([Dict.set]
      keeps the position of a key that is already present).
    - Spreadsheet identifiers are given by their [str(...)] text.
    - Numbers that the script computes with (read counts, control means,
      ratios) are exact rationals: the rounding error of binary64 arithmetic
      is not modelled.  Values the script only compares (thresholds, gene
      means) live in [pyfloat], the rationals extended by the infinities and
      NaN, with the comparisons of IEEE 754.
    - The workbook [Resultat_Ratio_*.xlsx] written at lines 666-683 and read
      back at lines 786-790 is passed on as the rows that were written.
    - The title row of the per-gene workbook (lines 850-853) and the drawing
      of the plots are left out; a plot is given by the points of its three
      groups. *)

From Stdlib Require Import List String Ascii ZArith QArith Qabs Qround Bool Lia Permutation.
Import ListNotations.
Local Open Scope string_scope.
Local Open Scope list_scope.
Local Open Scope Z_scope.

(** ** Exceptions *)

Inductive result (A : Type) : Type :=
| Ok (a : A)
| Raise (exc : string).
Arguments Ok {A} a.
Arguments Raise {A} exc.

Definition ZeroDivisionError : string := "ZeroDivisionError".
Definition KeyError : string := "KeyError".
Definition ValueError : string := "ValueError".

Definition rbind {A B : Type} (m : result A) (f : A -> result B) : result B :=
  match m with
  | Ok a => f a
  | Raise e => Raise e
  end.

Notation "x <- m ;; k" := (rbind m (fun x => k))
  (at level 61, m at next level, right associativity).

(** ** Dictionaries *)

Module Dict.

Definition dict (V : Type) : Type := list (string * V).

Fixpoint get {V : Type} (k : string) (d : dict V) : option V :=
  match d with
  | [] => None
  | (k', v) :: d' => if String.eqb k k' then Some v else get k d'
  end.

(** [d[k] = v] *)
Fixpoint set {V : Type} (k : string) (v : V) (d : dict V) : dict V :=
  match d with
  | [] => [(k, v)]
  | (k', v') :: d' =>
      if String.eqb k k' then (k', v) :: d' else (k', v') :: set k v d'
  end.

(** [d[k]] as an expression *)
Definition lookup {V : Type} (k : string) (d : dict V) : result V :=
  match get k d with
  | Some v => Ok v
  | None => Raise KeyError
  end.

Definition keys {V : Type} (d : dict V) : list string := map fst d.

End Dict.

Import Dict.

(** ** Strings *)

(** [s.replace(".0", "")] *)
Fixpoint replace_dot0 (s : string) : string :=
  match s with
  | EmptyString => EmptyString
  | String c s' =>
      match s' with
      | String c' s'' =>
          if (Ascii.eqb c "." && Ascii.eqb c' "0")%bool
          then replace_dot0 s''
          else String c (replace_dot0 s')
      | EmptyString => String c EmptyString
      end
  end.

(** [s.find(sub)], the lowest index of [sub] in [s] counted from [i], or -1 *)
Fixpoint find_from (sub s : string) (i : Z) : Z :=
  if String.prefix sub s then i
  else match s with
       | EmptyString => -1
       | String _ s' => find_from sub s' (i + 1)
       end.

Definition find (s sub : string) : Z := find_from sub s 0.

(** ** Floats as far as they are compared *)

Inductive pyfloat : Type :=
| F (q : Q)
| PInf
| NInf
| NaN.

Definition Qltb (x y : Q) : bool :=
  match Qcompare x y with Lt => true | _ => false end.

(** [x < y] *)
Definition flt (x y : pyfloat) : bool :=
  match x, y with
  | NaN, _ | _, NaN => false
  | _, NInf => false
  | PInf, _ => false
  | NInf, _ => true
  | _, PInf => true
  | F a, F b => Qltb a b
  end.

(** [x <= y] *)
Definition fle (x y : pyfloat) : bool :=
  match x, y with
  | NaN, _ | _, NaN => false
  | NInf, _ => true
  | _, PInf => true
  | _, NInf => false
  | PInf, _ => false
  | F a, F b => Qle_bool a b
  end.

(** [x > y] and [x >= y] *)
Definition fgt (x y : pyfloat) : bool := flt y x.
Definition fge (x y : pyfloat) : bool := fle y x.

(** [x == y] *)
Definition feq (x y : pyfloat) : bool :=
  match x, y with
  | F a, F b => Qeq_bool a b
  | PInf, PInf | NInf, NInf => true
  | _, _ => false
  end.

Definition is_nan (x : pyfloat) : bool :=
  match x with NaN => true | _ => false end.

(** ** Arithmetic of the ratio *)

Definition round_half_even (q : Q) : Z :=
  let n := Qnum q in
  let d := Zpos (Qden q) in
  let fl := n / d in
  match 2 * (n mod d) ?= d with
  | Lt => fl
  | Gt => fl + 1
  | Eq => if Z.even fl then fl else fl + 1
  end.

(** [round(q, 3)] *)
Definition round3 (q : Q) : Q := Qmake (round_half_even (q * (1000 # 1))) 1000.

(** [numpy.mean(l)]: the sum over the length, NaN for the empty list *)
Definition Qsum (l : list Q) : Q := fold_right Qplus (0 # 1)%Q l.

Definition numpy_mean (l : list Q) : pyfloat :=
  match l with
  | [] => NaN
  | _ :: _ => F (Qsum l / inject_Z (Z.of_nat (List.length l)))
  end.

(** ** Reference sheets (lines 496-516, 583-629, 792-833) *)

(** A row of GENEXUS_fichierOrdonneRegionStartGene_PanelAPHP.xlsx:
    columns 0, 3 and 5. *)
Record ListeOrdonnee_row : Type := mkLO {
  lo_chr : string;
  lo_ampli : string;
  lo_gene : string
}.

Definition listOrdonneeAMP (sheet : list ListeOrdonnee_row) : list string :=
  map (fun r => replace_dot0 (lo_ampli r)) sheet.

Definition dictAmpliChr (sheet : list ListeOrdonnee_row) : dict string :=
  fold_left (fun d r => set (replace_dot0 (lo_ampli r)) (lo_chr r) d) sheet [].

Definition dictAmpliGene (sheet : list ListeOrdonnee_row) : dict string :=
  fold_left (fun d r => set (replace_dot0 (lo_ampli r)) (lo_gene r) d) sheet [].

(** Rows of Moyenne_NormalizedRead_count_TemoinsPorphyriesGENEXUS.xlsx:
    columns 0 and 1. *)
Definition moy_Norm_TemoinsPorphy (fichierTemoin : list (string * Q)) : dict Q :=
  fold_left (fun d r => set (replace_dot0 (fst r)) (snd r) d) fichierTemoin [].

(** Rows of fichierOrdonneRegionStartGene_PanelAPHP.xlsx: columns 0 and 1. *)
Definition listeOrdonneeAmpli (fichierOrdonnee : list (string * string)) : list string :=
  map (fun r => replace_dot0 (snd r)) fichierOrdonnee.

Definition dictChrm (fichierOrdonnee : list (string * string)) : dict string :=
  fold_left (fun d r => set (replace_dot0 (snd r)) (fst r) d) fichierOrdonnee [].

(** Column 4 of listeCorrespondancePositionAmpliconGene.xlsx. *)
Definition listeNomGene0 (fichierNomGenes : list string) : list string :=
  map replace_dot0 fichierNomGenes.

(** [set(l)]: the iteration order of a Python set is not specified; the
    functions below take the sequence of genes as they are iterated, and
    [py_set] is the order [cnv_script_karim] below runs with. *)
Definition py_set (l : list string) : list string := nodup string_dec l.

Definition listeGeneNonInterets : list string :=
  [ "PENTA"; "224830378"; "224869380"; "224862488"; "224879644";
    "224829586"; "224851112"; "TH01"; "224825605"; "224824531";
    "AMEX"; "AMEY"; "D1MS201754411"; "MON27"; "BAT26"; "D2MS62063094";
    "NR24"; "BAT25"; "D5MS172421761"; "D6MS142691951"; "D7MS1787520";
    "D7MS74608741"; "D11MS106695515"; "D13MS31722621"; "NR21";
    "D15MS45897772"; "D16MS18882660"; "D17MS19314918" ].

(** [g in l] for a list of strings *)
Definition str_in (g : string) (l : list string) : bool :=
  existsb (String.eqb g) l.

(** ** Coverage matrix (lines 519-553) *)

(** A read-count cell of a patient's sheet holds text; it is given by what
    [int(...)] makes of it. *)
Inductive cell : Type :=
| IntText (z : Z)
| NotInt.

Definition py_int (c : cell) : result Z :=
  match c with
  | IntText z => Ok z
  | NotInt => Raise ValueError
  end.

(** Rows 1.. of a patient's sheet, columns 3 and 9. *)
Definition dictPatientEnCours (rows : list (string * cell)) : dict cell :=
  fold_left (fun d r => set (fst r) (snd r) d) rows [].

(** The patient's column of fichierEntreCNV_ALLpatients.xlsx, paired with
    column 1 (region_id). *)
Fixpoint matrix_column (genes : dict string) (pat : dict cell)
    (amps : list string) : result (list (string * Z)) :=
  match amps with
  | [] => Ok []
  | ampli_LO :: rest =>
      _ <- lookup ampli_LO genes ;;
      c <- lookup ampli_LO pat ;;
      n <- py_int c ;;
      col <- matrix_column genes pat rest ;;
      Ok ((ampli_LO, n) :: col)
  end.

Fixpoint build_matrix (genes : dict string) (amps : list string)
    (patients : list (string * list (string * cell)))
  : result (list (string * list (string * Z))) :=
  match patients with
  | [] => Ok []
  | (monID_patient, rows) :: rest =>
      col <- matrix_column genes (dictPatientEnCours rows) amps ;;
      cols <- build_matrix genes amps rest ;;
      Ok ((monID_patient, col) :: cols)
  end.

(** ** Normalisation and ratio (lines 575-610, 652-661) *)

Definition somme_colonnePatientX (col : list (string * Z)) : Z :=
  fold_left (fun somme r => somme + snd r) col 0.

Fixpoint moy_Norm_rows (col rows : list (string * Z)) (dictPatient : dict Q)
  : result (dict Q) :=
  match rows with
  | [] => Ok dictPatient
  | (id, v) :: rest =>
      let denom := somme_colonnePatientX col - v in
      if denom =? 0 then Raise ZeroDivisionError
      else moy_Norm_rows col rest
             (set (replace_dot0 id) (inject_Z v / inject_Z denom)%Q dictPatient)
  end.

Definition moy_Norm_dict_patient (col : list (string * Z)) : result (dict Q) :=
  moy_Norm_rows col col [].

Fixpoint ratio_items (temoins : dict Q) (items : list (string * Q))
    (dictRatio : dict Q) : result (dict Q) :=
  match items with
  | [] => Ok dictRatio
  | (kle, val) :: rest =>
      t <- lookup kle temoins ;;
      if Qeq_bool t 0 then Raise ZeroDivisionError
      else ratio_items temoins rest (set kle (round3 (val / t)) dictRatio)
  end.

Definition compute_dictRatio (temoins : dict Q) (col : list (string * Z))
  : result (dict Q) :=
  moy_Norm_dict_patientEC <- moy_Norm_dict_patient col ;;
  ratio_items temoins moy_Norm_dict_patientEC [].

(** ** Output: spreadsheet rows, anomaly text, plot groups *)

Inductive cell_format : Type :=
| cell_formatRED
| cell_formatBLUE
| no_format.

Inductive event : Type :=
(* Resultat_Ratio_*.xlsx: the three [worksheet.write] of one row *)
| Amp_row (row varPat : nat) (chr item : string) (ratio : Q) (f : cell_format)
| Amp_header (varPat : nat) (patient : string)
(* resultats_AMP/Fichier_Anomalies des patients_*.txt *)
| Amp_txt_patient (patient : string)
| Amp_txt_deletion (chr cle : string) (ratio : Q)
| Amp_txt_duplication (chr cle : string) (ratio : Q)
| Amp_txt_end
(* resultats_AMP/<patient>.png: groups Deletion, Duplication, Normal *)
| Amp_plot (patient : string) (g1 g2 g3 : list (nat * Q))
(* Resultat_MeanRatioGene_*.xlsx *)
| Gene_row (ligne numPat : nat) (chr geneName : string) (ratio : pyfloat)
    (f : cell_format)
(* resultats_Gene/Fichier_Anomalies des patients_*.txt *)
| Gene_txt_patient (patient : string)
| Gene_txt_deletion (chr geneName : string) (ratio : pyfloat)
| Gene_txt_duplication (chr geneName : string) (ratio : pyfloat)
| Gene_txt_end
(* resultats_Gene/<patient>.png *)
| Gene_plot (patient : string) (g1 g2 g3 : list (nat * pyfloat))
    (dictSticks : dict nat).

(** What has been written so far, and the value or the exception. *)
Definition M (A : Type) : Type := (list event * result A)%type.

Definition mret {A : Type} (a : A) : M A := ([], Ok a).

Definition mbind {A B : Type} (m : M A) (f : A -> M B) : M B :=
  match m with
  | (l, Ok a) => let (l', r) := f a in (l ++ l', r)
  | (l, Raise e) => (l, Raise e)
  end.

Definition emit (ev : event) : M unit := ([ev], Ok tt).

Definition lift {A : Type} (r : result A) : M A := ([], r).

Notation "x <~ m ;; k" := (mbind m (fun x => k))
  (at level 61, m at next level, right associativity).

Definition written {A : Type} (m : M A) : list event := fst m.
Definition outcome {A : Type} (m : M A) : result A := snd m.

Fixpoint for_each {A : Type} (body : A -> M unit) (l : list A) : M unit :=
  match l with
  | [] => mret tt
  | a :: rest => _ <~ body a ;; for_each body rest
  end.

(** A loop with a counter incremented at the end of each turn. *)
Fixpoint for_each_from {A : Type} (body : nat -> A -> M unit) (i : nat)
    (l : list A) : M unit :=
  match l with
  | [] => mret tt
  | a :: rest => _ <~ body i a ;; for_each_from body (S i) rest
  end.

(** ** The threshold branches *)

Inductive Classification : Type :=
| Deletion
| Duplication
| Normal.

(** [if x < deletion_threshold: ... elif x >= duplication_threshold: ...
    else: ...] (lines 667-681, 727-735) *)
Definition classify (x deletion_threshold duplication_threshold : pyfloat)
  : Classification :=
  if flt x deletion_threshold then Deletion
  else if fge x duplication_threshold then Duplication
  else Normal.

Definition format_of (c : Classification) : cell_format :=
  match c with
  | Deletion => cell_formatRED
  | Duplication => cell_formatBLUE
  | Normal => no_format
  end.

(** ** Amplicon level, one patient (lines 650-778) *)

Section Amplicon.

Variable dictChromosome : dict string.
Variable deletion_threshold duplication_threshold : pyfloat.
Variable dictRatio : dict Q.
Variable varPat : nat.

(** Lines 666-681. *)
Definition amp_sheet_row (row : nat) (item : string) : M unit :=
  r <~ lift (lookup item dictRatio) ;;
  chr <~ lift (lookup item dictChromosome) ;;
  emit (Amp_row row varPat chr item r
          (format_of (classify (F r) deletion_threshold duplication_threshold))).

Definition amp_sheet (items : list string) : M unit :=
  for_each_from amp_sheet_row 1%nat items.

(** Lines 700-706. *)
Definition amp_txt_deletion (cle : string) : M unit :=
  r <~ lift (lookup cle dictRatio) ;;
  if flt (F r) deletion_threshold
  then chr <~ lift (lookup cle dictChromosome) ;;
       emit (Amp_txt_deletion chr cle r)
  else mret tt.

(** Lines 707-713. *)
Definition amp_txt_duplication (cle : string) : M unit :=
  r <~ lift (lookup cle dictRatio) ;;
  if fge (F r) duplication_threshold
  then chr <~ lift (lookup cle dictChromosome) ;;
       emit (Amp_txt_duplication chr cle r)
  else mret tt.

(** Lines 717-735: the points [(var, j)] of the three groups. *)
Definition amp_plot_group (c : Classification) (items : list string)
  : list (nat * Q) :=
  flat_map
    (fun p : nat * string =>
       map (fun ij => (fst p, snd ij))
         (filter
            (fun ij =>
               String.eqb (snd p) (fst ij) &&
               match classify (F (snd ij)) deletion_threshold
                       duplication_threshold, c with
               | Deletion, Deletion | Duplication, Duplication
               | Normal, Normal => true
               | _, _ => false
               end)%bool
            dictRatio))
    (combine (seq 1 (List.length items)) items).

(** The rows of the sheet as they are read back at lines 789-790:
    columns 0, 1 and [varPat] (both lookups have succeeded for every
    item once [amp_sheet] has returned). *)
Fixpoint sheet_rows (items : list string) : list (string * string * Q) :=
  match items with
  | [] => []
  | item :: rest =>
      match get item dictChromosome, get item dictRatio with
      | Some chr, Some r => (chr, item, r) :: sheet_rows rest
      | _, _ => sheet_rows rest
      end
  end.

Definition amp_report (patient : string) (items : list string) : M unit :=
  _ <~ amp_sheet items ;;
  _ <~ emit (Amp_header varPat patient) ;;
  _ <~ emit (Amp_txt_patient patient) ;;
  _ <~ for_each amp_txt_deletion items ;;
  _ <~ for_each amp_txt_duplication items ;;
  _ <~ emit Amp_txt_end ;;
  emit (Amp_plot patient (amp_plot_group Deletion items)
          (amp_plot_group Duplication items) (amp_plot_group Normal items)).

End Amplicon.

(** One turn of the loop at line 650, for the patient in column [varPat]. *)
Definition amp_patient (dictChromosome : dict string) (temoins : dict Q)
    (deletion_threshold duplication_threshold : pyfloat)
    (items : list string) (varPat : nat)
    (patient : string * list (string * Z))
  : M (string * list (string * string * Q)) :=
  dictRatio <~ lift (compute_dictRatio temoins (snd patient)) ;;
  _ <~ amp_report dictChromosome deletion_threshold duplication_threshold
         dictRatio varPat (fst patient) items ;;
  mret (fst patient, sheet_rows dictChromosome dictRatio items).

Fixpoint amp_stage (dictChromosome : dict string) (temoins : dict Q)
    (deletion_threshold duplication_threshold : pyfloat)
    (items : list string) (varPat : nat)
    (matrix : list (string * list (string * Z)))
  : M (list (string * list (string * string * Q))) :=
  match matrix with
  | [] => mret []
  | patient :: rest =>
      p <~ amp_patient dictChromosome temoins deletion_threshold
             duplication_threshold items varPat patient ;;
      ps <~ amp_stage dictChromosome temoins deletion_threshold
              duplication_threshold items (S varPat) rest ;;
      mret (p :: ps)
  end.

(** ** Gene level, one patient (lines 858-1019) *)

(** Lines 863-866: the rows whose amplicon text contains [gene]. *)
Definition gene_match (gene : string) (row : string * string * Q) : bool :=
  negb (find (replace_dot0 (snd (fst row))) gene =? -1).

Fixpoint gene_scan (gene : string) (rows : list (string * string * Q))
    (listeGene : list Q) (dictChromoso : dict string)
  : list Q * dict string :=
  match rows with
  | [] => (listeGene, dictChromoso)
  | row :: rest =>
      if gene_match gene row
      then gene_scan gene rest (listeGene ++ [snd row])
             (set gene (fst (fst row)) dictChromoso)
      else gene_scan gene rest listeGene dictChromoso
  end.

(** Lines 859-867. *)
Fixpoint gene_means (rows : list (string * string * Q)) (genes : list string)
    (dictRatioParGene : dict pyfloat) (dictChromoso : dict string)
  : dict pyfloat * dict string :=
  match genes with
  | [] => (dictRatioParGene, dictChromoso)
  | gene :: rest =>
      let (listeGene, dictChromoso') := gene_scan gene rows [] dictChromoso in
      gene_means rows rest
        (set gene (numpy_mean listeGene) dictRatioParGene) dictChromoso'
  end.

Record plot_groups : Type := mkGroups {
  g1 : list (nat * pyfloat);
  g2 : list (nat * pyfloat);
  g3 : list (nat * pyfloat);
  dictSticks : dict nat
}.

Section Gene.

Variable deletion_threshold duplication_threshold : pyfloat.
Variable dictRatioParGene : dict pyfloat.
Variable dictChromoso : dict string.
Variable numPat : nat.

Definition non_interet (geneName : string) : bool :=
  str_in geneName listeGeneNonInterets.

(** Lines 884-893. *)
Definition gene_txt_deletion (geneName : string) : M unit :=
  r <~ lift (lookup geneName dictRatioParGene) ;;
  if (flt r deletion_threshold && negb (non_interet geneName))%bool
  then chr <~ lift (lookup geneName dictChromoso) ;;
       emit (Gene_txt_deletion chr geneName r)
  else mret tt.

(** Lines 896-905. *)
Definition gene_txt_duplication (geneName : string) : M unit :=
  r <~ lift (lookup geneName dictRatioParGene) ;;
  if (fge r duplication_threshold && negb (non_interet geneName))%bool
  then chr <~ lift (lookup geneName dictChromoso) ;;
       emit (Gene_txt_duplication chr geneName r)
  else mret tt.

(** Lines 908-934. *)
Definition gene_format (geneName : string) (r : pyfloat) : cell_format :=
  if (flt r deletion_threshold && negb (non_interet geneName))%bool
  then cell_formatRED
  else if (fge r duplication_threshold && negb (non_interet geneName))%bool
  then cell_formatBLUE
  else no_format.

Definition gene_sheet_row (ligne : nat) (geneName : string) : M unit :=
  r <~ lift (lookup geneName dictRatioParGene) ;;
  chr <~ lift (lookup geneName dictChromoso) ;;
  emit (Gene_row ligne numPat chr geneName r (gene_format geneName r)).

(** Lines 949-971: one turn at abscissa [abcisse]. *)
Definition gene_plot_step (abcisse : nat) (geneNom : string) (r : pyfloat)
    (st : plot_groups) : plot_groups :=
  if (flt r deletion_threshold && negb (non_interet geneNom))%bool
  then mkGroups (g1 st ++ [(abcisse, r)]) (g2 st) (g3 st)
         (set geneNom abcisse (dictSticks st))
  else if (fge r duplication_threshold && negb (non_interet geneNom))%bool
  then mkGroups (g1 st) (g2 st ++ [(abcisse, r)]) (g3 st)
         (set geneNom abcisse (dictSticks st))
  else if (fgt r deletion_threshold && flt r duplication_threshold
           && negb (non_interet geneNom))%bool
  then mkGroups (g1 st) (g2 st) (g3 st ++ [(abcisse, r)]) (dictSticks st)
  else st.

Fixpoint gene_plot_loop (abcisse : nat) (genes : list string)
    (st : plot_groups) : result plot_groups :=
  match genes with
  | [] => Ok st
  | geneNom :: rest =>
      r <- lookup geneNom dictRatioParGene ;;
      gene_plot_loop (S abcisse) rest (gene_plot_step abcisse geneNom r st)
  end.

Definition gene_report (patient : string) (genes : list string) : M unit :=
  _ <~ emit (Gene_txt_patient patient) ;;
  _ <~ for_each gene_txt_deletion genes ;;
  _ <~ for_each gene_txt_duplication genes ;;
  _ <~ for_each_from gene_sheet_row 1%nat genes ;;
  _ <~ emit Gene_txt_end ;;
  st <~ lift (gene_plot_loop 1%nat genes (mkGroups [] [] [] [])) ;;
  emit (Gene_plot patient (g1 st) (g2 st) (g3 st) (dictSticks st)).

End Gene.

(** One turn of the loop at line 858, for the patient in column [numPat]. *)
Definition gene_patient (deletion_threshold duplication_threshold : pyfloat)
    (genes : list string) (numPat : nat)
    (patient : string * list (string * string * Q)) : M unit :=
  let (dictRatioParGene, dictChromoso) :=
    gene_means (snd patient) genes [] [] in
  gene_report deletion_threshold duplication_threshold dictRatioParGene
    dictChromoso numPat (fst patient) genes.

Fixpoint gene_stage (deletion_threshold duplication_threshold : pyfloat)
    (genes : list string) (numPat : nat)
    (feui_FMR : list (string * list (string * string * Q))) : M unit :=
  match feui_FMR with
  | [] => mret tt
  | patient :: rest =>
      _ <~ gene_patient deletion_threshold duplication_threshold genes
             numPat patient ;;
      gene_stage deletion_threshold duplication_threshold genes (S numPat) rest
  end.

(** ** The run *)

Record inputs : Type := mkInputs {
  (** GENEXUS_fichierOrdonneRegionStartGene_PanelAPHP.xlsx *)
  fichierListeOrdonnee : list ListeOrdonnee_row;
  (** per patient: name and rows (columns 3 and 9) of *.amplicon.cov.xls *)
  rawData : list (string * list (string * cell));
  (** fichierOrdonneRegionStartGene_PanelAPHP.xlsx, columns 0 and 1 *)
  fichierOrdonnee : list (string * string);
  (** Moyenne_NormalizedRead_count_TemoinsPorphyriesGENEXUS.xlsx *)
  fichierTemoin : list (string * Q);
  (** listeCorrespondancePositionAmpliconGene.xlsx, column 4 *)
  fichierNomGenes : list string
}.

Definition cnv_script_karim (inp : inputs)
    (duplication_threshold deletion_threshold : pyfloat) : M unit :=
  matrix <~ lift (build_matrix (dictAmpliGene (fichierListeOrdonnee inp))
                    (listOrdonneeAMP (fichierListeOrdonnee inp))
                    (rawData inp)) ;;
  let dict_moy_Norm_TemoinsPorphy :=
    moy_Norm_TemoinsPorphy (fichierTemoin inp) in
  feui_FMR <~ amp_stage (dictChrm (fichierOrdonnee inp))
                dict_moy_Norm_TemoinsPorphy deletion_threshold
                duplication_threshold
                (listeOrdonneeAmpli (fichierOrdonnee inp)) 2%nat matrix ;;
  gene_stage deletion_threshold duplication_threshold
    (py_set (listeNomGene0 (fichierNomGenes inp))) 2%nat feui_FMR.

(** ** Text of the raw files (lines 367, 474-480, 525-527) *)

(** [s.replace("\n", "")] *)
Fixpoint remove_newlines (s : string) : string :=
  match s with
  | EmptyString => EmptyString
  | String c s' =>
      if Ascii.eqb c "010" then remove_newlines s'
      else String c (remove_newlines s')
  end.

(** [s.split(sep)] for a separator of one character *)
Fixpoint split_char (sep : ascii) (s : string) : list string :=
  match s with
  | EmptyString => [EmptyString]
  | String c s' =>
      if Ascii.eqb c sep then EmptyString :: split_char sep s'
      else match split_char sep s' with
           | field :: fields => String c field :: fields
           | [] => [String c EmptyString]
           end
  end.

(** Line 479: the cells of one line of a raw coverage file,
    [row.replace("\n", "").split("\t")]. *)
Definition row_cells (row : string) : list string :=
  split_char "009" (remove_newlines row).

(** Lines 367 and 527: [name.split(".")[0]]. *)
Definition split_dot_0 (name : string) : string :=
  hd EmptyString (split_char "." name).

(** Lines 438-442: the name under which the coverage file of the directory
    [listRepPatient] is copied. *)
Definition file_to_name (listRepPatient basename : string) : string :=
  (listRepPatient ++ "." ++ basename)%string.

(** ** User preferences (lines 42-66) *)

(** The file config.json: absent, holding an object of strings, or holding
    something [json.load] rejects. *)
Inductive prefs_file : Type :=
| NoFile
| JsonObject (prefs : dict string)
| NotJson.

Definition JSONDecodeError : string := "JSONDecodeError".

(** [old.update(new)] *)
Definition dict_update {V : Type} (old new : dict V) : dict V :=
  fold_left (fun d kv => set (fst kv) (snd kv) d) new old.

Definition load_user_prefs (user_prefs : prefs_file) : result (dict string) :=
  match user_prefs with
  | NoFile => Ok []
  | JsonObject prefs => Ok prefs
  | NotJson => Raise JSONDecodeError
  end.

(** The exception or [tt], and the file afterwards. *)
Definition save_user_prefs (prefs : dict string) (user_prefs : prefs_file)
  : result unit * prefs_file :=
  match user_prefs with
  | NoFile => (Ok tt, JsonObject (dict_update [] prefs))
  | JsonObject old_prefs => (Ok tt, JsonObject (dict_update old_prefs prefs))
  | NotJson => (Raise JSONDecodeError, NotJson)
  end.

(** ** The window (lines 69-274)

    A dialog of the window is given by the answer of the user, the empty
    text when the user cancels; [os.path.isdir], [os.path.isfile] and
    [os.path.join] are taken as they are; the process is running from a
    successful start until it finishes. *)

Inductive message : Type :=
| Invalid_refdir (current : option string)
| Invalid_workdir (current : option string)
| Already_running
| Running_script (program : string) (arguments : list string)
| Cannot_start
| Script_failed
| Script_succeeded.

Record MainWindow : Type := mkWindow {
  _refdir : option string;
  _workdir : option string;
  _last_zip : option string;
  run_name : string;
  (** [setup_wait_mode]: button hidden, progress bar shown *)
  wait_mode : bool;
  (** [_process.state() == Running] *)
  process_running : bool;
  (** slots connected to [_process.finished] *)
  connections : nat;
  (** config.json *)
  user_prefs : prefs_file;
  (** message boxes shown so far, the latest first *)
  shown : list message
}.

Definition with_refdir (v : option string) (w : MainWindow) : MainWindow :=
  mkWindow v (_workdir w) (_last_zip w) (run_name w) (wait_mode w)
    (process_running w) (connections w) (user_prefs w) (shown w).

Definition with_workdir (v : option string) (w : MainWindow) : MainWindow :=
  mkWindow (_refdir w) v (_last_zip w) (run_name w) (wait_mode w)
    (process_running w) (connections w) (user_prefs w) (shown w).

Definition with_last_zip (v : option string) (w : MainWindow) : MainWindow :=
  mkWindow (_refdir w) (_workdir w) v (run_name w) (wait_mode w)
    (process_running w) (connections w) (user_prefs w) (shown w).

Definition with_run_name (v : string) (w : MainWindow) : MainWindow :=
  mkWindow (_refdir w) (_workdir w) (_last_zip w) v (wait_mode w)
    (process_running w) (connections w) (user_prefs w) (shown w).

Definition with_wait_mode (v : bool) (w : MainWindow) : MainWindow :=
  mkWindow (_refdir w) (_workdir w) (_last_zip w) (run_name w) v
    (process_running w) (connections w) (user_prefs w) (shown w).

Definition with_process_running (v : bool) (w : MainWindow) : MainWindow :=
  mkWindow (_refdir w) (_workdir w) (_last_zip w) (run_name w) (wait_mode w)
    v (connections w) (user_prefs w) (shown w).

Definition with_connections (v : nat) (w : MainWindow) : MainWindow :=
  mkWindow (_refdir w) (_workdir w) (_last_zip w) (run_name w) (wait_mode w)
    (process_running w) v (user_prefs w) (shown w).

Definition with_user_prefs (v : prefs_file) (w : MainWindow) : MainWindow :=
  mkWindow (_refdir w) (_workdir w) (_last_zip w) (run_name w) (wait_mode w)
    (process_running w) (connections w) v (shown w).

Definition show (m : message) (w : MainWindow) : MainWindow :=
  mkWindow (_refdir w) (_workdir w) (_last_zip w) (run_name w) (wait_mode w)
    (process_running w) (connections w) (user_prefs w) (m :: shown w).

(** A method of the window: the exception or the value, and the window
    afterwards. *)
Definition G (A : Type) : Type := MainWindow -> result A * MainWindow.

Definition gret {A : Type} (a : A) : G A := fun w => (Ok a, w).

Definition gbind {A B : Type} (m : G A) (f : A -> G B) : G B :=
  fun w =>
    match m w with
    | (Ok a, w') => f a w'
    | (Raise e, w') => (Raise e, w')
    end.

Notation "x <-- m ;; k" := (gbind m (fun x => k))
  (at level 61, m at next level, right associativity).

Definition modify (f : MainWindow -> MainWindow) : G unit :=
  fun w => (Ok tt, f w).

Definition read {A : Type} (f : MainWindow -> A) : G A :=
  fun w => (Ok (f w), w).

(** [save_user_prefs(prefs)] called from a method of the window *)
Definition save_prefs (prefs : dict string) : G unit :=
  fun w =>
    let (r, file) := save_user_prefs prefs (user_prefs w) in
    (r, with_user_prefs file w).

(** Lines 71-140: [MainWindow()] on the preferences file. *)
Definition MainWindow_init (file : prefs_file) : result MainWindow :=
  prefs <- load_user_prefs file ;;
  Ok (mkWindow (get "refdir" prefs) (get "workdir" prefs)
        (get "last_zip" prefs) EmptyString false false 0 file []).

Section Window.

Variable isdir isfile : string -> bool.
Variable path_join : string -> string -> string.
(** ["__compiled__" in globals()], [sys.argv[0]], [sys.executable] *)
Variable compiled : bool.
Variable argv0 executable : string.

(** Lines 145-157; [refdir] is the answer of the directory dialog. *)
Definition select_refdir (refdir : string) : G unit :=
  if (negb (String.eqb refdir EmptyString) && isdir refdir)%bool
  then _ <-- modify (with_refdir (Some refdir)) ;;
       save_prefs [("refdir", refdir)]
  else current <-- read _refdir ;;
       modify (show (Invalid_refdir current)).

(** Lines 159-171. *)
Definition select_workdir (workdir : string) : G unit :=
  if (negb (String.eqb workdir EmptyString) && isdir workdir)%bool
  then _ <-- modify (with_workdir (Some workdir)) ;;
       save_prefs [("workdir", workdir)]
  else current <-- read _workdir ;;
       modify (show (Invalid_workdir current)).

(** The answers to the dialogs of [run_script], and whether the process
    starts. *)
Record answers : Type := mkAnswers {
  ans_refdir : string;
  ans_workdir : string;
  ans_zip : string;
  ans_name : string;
  ans_started : bool
}.

(** Lines 206-236. *)
Definition start_process (refdir workdir input_zip name : string)
    (started : bool) : G unit :=
  let arguments :=
    ["--refdir"; refdir; "--workdir"; path_join workdir name; input_zip] in
  let program := if compiled then argv0 else executable in
  let arguments := if compiled then arguments else argv0 :: arguments in
  _ <-- modify (show (Running_script program arguments)) ;;
  if started
  then _ <-- modify (with_process_running true) ;;
       _ <-- modify (with_wait_mode true) ;;
       n <-- read connections ;;
       modify (with_connections (S n))
  else modify (show Cannot_start).

(** Lines 173-236. *)
Definition run_script (a : answers) : G unit :=
  running <-- read process_running ;;
  if running then modify (show Already_running)
  else
    refdir <-- read _refdir ;;
    _ <-- match refdir with
          | None => select_refdir (ans_refdir a)
          | Some _ => gret tt
          end ;;
    workdir <-- read _workdir ;;
    _ <-- match workdir with
          | None => select_workdir (ans_workdir a)
          | Some _ => gret tt
          end ;;
    refdir <-- read _refdir ;;
    workdir <-- read _workdir ;;
    match refdir, workdir with
    | Some refdir, Some workdir =>
        let input_zip := ans_zip a in
        if (String.eqb input_zip EmptyString || negb (isfile input_zip))%bool
        then gret tt
        else
          _ <-- modify (with_last_zip (Some input_zip)) ;;
          _ <-- save_prefs [("last_zip", input_zip)] ;;
          _ <-- modify (with_run_name (ans_name a)) ;;
          if String.eqb (ans_name a) EmptyString then gret tt
          else start_process refdir workdir input_zip (ans_name a)
                 (ans_started a)
    | _, _ => gret tt
    end.

(** Lines 256-266: one call of the slot. *)
Definition on_worker_finished (returncode : Z) : G unit :=
  _ <-- modify (show (if returncode =? 0 then Script_succeeded
                      else Script_failed)) ;;
  modify (with_wait_mode false).

(** The process finishes: every slot connected to [finished] is called. *)
Fixpoint call_slots (n : nat) (returncode : Z) : G unit :=
  match n with
  | O => gret tt
  | S n' => _ <-- on_worker_finished returncode ;; call_slots n' returncode
  end.

Definition process_finished (returncode : Z) : G unit :=
  _ <-- modify (with_process_running false) ;;
  n <-- read connections ;;
  call_slots n returncode.

End Window.

(** ** Auxiliary notions for the statements *)

Definition row_key (r : string * Z) : string := replace_dot0 (fst r).




(** The ratios of the rows that [gene_scan] collects for [g]. *)
Definition gene_ratios (g : string) (rows : list (string * string * Q))
  : list Q :=
  map snd (filter (gene_match g) rows).




(** The item has a ratio and a chromosome. *)
Definition amp_known (dictChromosome : dict string) (dictRatio : dict Q)
    (item : string) : bool :=
  match get item dictRatio, get item dictChromosome with
  | Some _, Some _ => true
  | _, _ => false
  end.

(** The gene has a chromosome. *)
Definition gene_known (dictChromoso : dict string) (g : string) : bool :=
  match get g dictChromoso with
  | Some _ => true
  | None => false
  end.

(** [sep.join(fields)] for a separator of one character *)
Fixpoint join_char (sep : ascii) (fields : list string) : string :=
  match fields with
  | [] => EmptyString
  | [field] => field
  | field :: rest => (field ++ String sep (join_char sep rest))%string
  end.

(** The character [c] occurs in [s]. *)
Fixpoint has_char (c : ascii) (s : string) : bool :=
  match s with
  | EmptyString => false
  | String c' s' => (Ascii.eqb c' c || has_char c s')%bool
  end.

(** The number of occurrences of [c] in [s]. *)
Fixpoint count_char (c : ascii) (s : string) : nat :=
  match s with
  | EmptyString => 0%nat
  | String c' s' =>
      if Ascii.eqb c' c then S (count_char c s') else count_char c s'
  end.



(** A gene of the plot that gets a label on the x axis. *)
Definition gene_labelled (deletion_threshold duplication_threshold : pyfloat)
    (geneNom : string) (r : pyfloat) : bool :=
  (negb (non_interet geneNom) &&
   (flt r deletion_threshold || fge r duplication_threshold))%bool.

(** The amplicons of the list whose ratio is below, or at least, a
    threshold. *)
Definition ratio_below (dictRatio : dict Q) (d : pyfloat) (cle : string) : bool :=
  match get cle dictRatio with
  | Some r => flt (F r) d
  | None => false
  end.

Definition ratio_at_least (dictRatio : dict Q) (u : pyfloat) (cle : string)
  : bool :=
  match get cle dictRatio with
  | Some r => fge (F r) u
  | None => false
  end.

(** The genes listed as deletions, or as duplications, in the anomaly
    text of the gene level. *)
Definition gene_listed_deletion (dictRatioParGene : dict pyfloat)
    (d : pyfloat) (geneName : string) : bool :=
  match get geneName dictRatioParGene with
  | Some r => (flt r d && negb (non_interet geneName))%bool
  | None => false
  end.

Definition gene_listed_duplication (dictRatioParGene : dict pyfloat)
    (u : pyfloat) (geneName : string) : bool :=
  match get geneName dictRatioParGene with
  | Some r => (fge r u && negb (non_interet geneName))%bool
  | None => false
  end.

(** The windows a session can be in: the window as created, and what the
    methods and the end of the process make of it. *)
Inductive reachable (isdir isfile : string -> bool)
    (path_join : string -> string -> string) (compiled : bool)
    (argv0 executable : string) : MainWindow -> Prop :=
| reach_init file w :
    MainWindow_init file = Ok w ->
    reachable isdir isfile path_join compiled argv0 executable w
| reach_select_refdir w refdir :
    reachable isdir isfile path_join compiled argv0 executable w ->
    reachable isdir isfile path_join compiled argv0 executable
      (snd (select_refdir isdir refdir w))
| reach_select_workdir w workdir :
    reachable isdir isfile path_join compiled argv0 executable w ->
    reachable isdir isfile path_join compiled argv0 executable
      (snd (select_workdir isdir workdir w))
| reach_run_script w a :
    reachable isdir isfile path_join compiled argv0 executable w ->
    reachable isdir isfile path_join compiled argv0 executable
      (snd (run_script isdir isfile path_join compiled argv0 executable a w))
| reach_finished w returncode :
    reachable isdir isfile path_join compiled argv0 executable w ->
    process_running w = true ->
    reachable isdir isfile path_join compiled argv0 executable
      (snd (process_finished returncode w)).

(** The message of [on_worker_finished]. *)
Definition result_message (returncode : Z) : message :=
  if returncode =? 0 then Script_succeeded else Script_failed.


(** ** Sample data *)

(** A sample whose reads all fall on one amplicon. *)
Definition col_single : list (string * Z) := [("A1", 5); ("A2", 0)].

(** Two amplicons of one gene; the names of the amplicons contain the name
    of the gene. *)
Definition run_G1 : inputs :=
  mkInputs
    [mkLO "1" "G1_a" "G1"; mkLO "1" "G1_b" "G1"]
    [("P1", [("G1_a", IntText 10); ("G1_b", IntText 30)])]
    [("1", "G1_a"); ("1", "G1_b")]
    [("G1_a", 1%Q); ("G1_b", 2%Q)]
    ["G1"].



Definition rows_TP53 : list (string * string * Q) :=
  [("17", "TP53_1", 1%Q); ("15", "TP53BP1_1", 2%Q)].





(** * Properties *)

(** ** Comparisons *)

Lemma Qltb_lt (a b : Q) : Qltb a b = true <-> (a < b)%Q.
Proof.
  unfold Qltb. rewrite Qlt_alt.
  destruct (a ?= b)%Q; split; congruence.
Qed.

Lemma Qltb_ge (a b : Q) : Qltb a b = false <-> (b <= a)%Q.
Proof.
  rewrite <- Bool.not_true_iff_false, Qltb_lt.
  split; [apply Qnot_lt_le | apply Qle_not_lt].
Qed.



Lemma feq_F (a b : Q) : feq (F a) (F b) = true <-> (a == b)%Q.
Proof. apply Qeq_bool_iff. Qed.




Lemma flt_not_nan (x d : pyfloat) : flt x d = true -> is_nan x = false.
Proof. destruct x, d; simpl; congruence. Qed.

Lemma fge_not_nan (x u : pyfloat) : fge x u = true -> is_nan x = false.
Proof. destruct x, u; simpl; congruence. Qed.



(** ** Rounding *)



Lemma round3_idempotent (q : Q) : round3 (round3 q) = round3 q.
Proof.
  unfold round3 at 1 3. f_equal.
  set (n := round_half_even (q * (1000 # 1))).
  unfold round3. fold n.
  unfold round_half_even, Qmult. cbn [Qnum Qden].
  change (Z.pos (1000 * 1)) with 1000.
  rewrite Z.div_mul, Z.mod_mul by lia. reflexivity.
Qed.


(** ** The writer of events *)

Lemma mbind_outcome_ok {A B : Type} (m : M A) (f : A -> M B) (b : B) :
  outcome (mbind m f) = Ok b ->
  exists a, outcome m = Ok a /\ outcome (f a) = Ok b /\
            written (mbind m f) = written m ++ written (f a).
Proof.
  destruct m as [l [a|e]]; simpl; [|discriminate].
  destruct (f a) as [l' r] eqn:E; simpl. intros ->.
  exists a. rewrite E. auto.
Qed.

Lemma mbind_outcome {A B : Type} (m : M A) (f : A -> M B) :
  outcome (mbind m f) =
  match outcome m with
  | Ok a => outcome (f a)
  | Raise e => Raise e
  end.
Proof.
  destruct m as [l [a|e]]; simpl; auto.
  now destruct (f a).
Qed.

Lemma mbind_written_raise {A B : Type} (m : M A) (f : A -> M B) (e : string) :
  outcome m = Raise e -> mbind m f = (written m, Raise e).
Proof. destruct m as [l [a|e']]; simpl; congruence. Qed.

Lemma lift_bind {A B : Type} (r : result A) (f : A -> M B) :
  mbind (lift r) f = match r with Ok a => f a | Raise e => ([], Raise e) end.
Proof. destruct r; simpl; auto. now destruct (f a). Qed.

Lemma for_each_ok {A : Type} (body : A -> M unit) (l : list A) :
  outcome (for_each body l) = Ok tt ->
  Forall (fun a => outcome (body a) = Ok tt) l /\
  written (for_each body l) = flat_map (fun a => written (body a)) l.
Proof.
  induction l as [|a l IH]; simpl; intros H; [auto|].
  apply mbind_outcome_ok in H. destruct H as ([] & Ha & Hl & ->).
  destruct (IH Hl) as [IH1 ->]. auto.
Qed.

Lemma for_each_from_ok {A : Type} (body : nat -> A -> M unit) (l : list A) :
  forall i : nat,
  outcome (for_each_from body i l) = Ok tt ->
  Forall (fun p => outcome (body (fst p) (snd p)) = Ok tt)
    (combine (seq i (List.length l)) l) /\
  written (for_each_from body i l) =
  flat_map (fun p => written (body (fst p) (snd p)))
    (combine (seq i (List.length l)) l).
Proof.
  induction l as [|a l IH]; simpl; intros i H; [auto|].
  apply mbind_outcome_ok in H. destruct H as ([] & Ha & Hl & ->).
  destruct (IH _ Hl) as [IH1 ->]. auto.
Qed.

(** A loop whose turns all return has returned. *)
Lemma for_each_all_ok {A : Type} (body : A -> M unit) (l : list A) :
  Forall (fun a => outcome (body a) = Ok tt) l ->
  outcome (for_each body l) = Ok tt.
Proof.
  induction 1 as [|a l Ha _ IH]; simpl; auto.
  rewrite mbind_outcome, Ha. exact IH.
Qed.


(** ** Amplicon level *)


Lemma flt_asym (d u : pyfloat) : flt d u = true -> flt u d = false.
Proof.
  destruct d as [a| | |], u as [b| | |]; simpl; try congruence.
  intros H. apply Qltb_lt in H. apply Qltb_ge. now apply Qlt_le_weak.
Qed.

Lemma classify_cases (x d u : pyfloat) :
  (classify x d u = Deletion <-> flt x d = true) /\
  (classify x d u = Duplication <-> flt x d = false /\ fge x u = true) /\
  (classify x d u = Normal <-> flt x d = false /\ fge x u = false).
Proof.
  unfold classify.
  destruct (flt x d), (fge x u); repeat split; intros; try tauto;
    try congruence; destruct H; congruence.
Qed.

Lemma lookup_ok {V : Type} (k : string) (d : dict V) (v : V) :
  lookup k d = Ok v <-> get k d = Some v.
Proof. unfold lookup. destruct (get k d); split; congruence. Qed.

Lemma lookup_outcome {V : Type} (k : string) (d : dict V) :
  (exists v, lookup k d = Ok v /\ get k d = Some v) \/
  (lookup k d = Raise KeyError /\ get k d = None).
Proof. unfold lookup. destruct (get k d); eauto. Qed.

Section AmpliconFacts.

Variable dictChromosome : dict string.
Variable d u : pyfloat.
Variable dictRatio : dict Q.
Variable varPat : nat.

Lemma amp_sheet_row_ok (row : nat) (item : string) :
  outcome (amp_sheet_row dictChromosome d u dictRatio varPat row item) = Ok tt ->
  exists r chr,
    get item dictRatio = Some r /\ get item dictChromosome = Some chr /\
    written (amp_sheet_row dictChromosome d u dictRatio varPat row item) =
    [Amp_row row varPat chr item r (format_of (classify (F r) d u))].
Proof.
  unfold amp_sheet_row. rewrite !lift_bind.
  destruct (lookup_outcome item dictRatio) as [(r & -> & Hr)|[-> _]];
    [|discriminate].
  rewrite lift_bind.
  destruct (lookup_outcome item dictChromosome) as [(c & -> & Hc)|[-> _]];
    [|discriminate].
  intros _. exists r, c. auto.
Qed.

Lemma amp_txt_deletion_ok (cle : string) :
  outcome (amp_txt_deletion dictChromosome d dictRatio cle) = Ok tt ->
  exists r,
    get cle dictRatio = Some r /\
    ((flt (F r) d = true /\
      exists chr, get cle dictChromosome = Some chr /\
        written (amp_txt_deletion dictChromosome d dictRatio cle) =
        [Amp_txt_deletion chr cle r]) \/
     (flt (F r) d = false /\
      written (amp_txt_deletion dictChromosome d dictRatio cle) = [])).
Proof.
  unfold amp_txt_deletion. rewrite lift_bind.
  destruct (lookup_outcome cle dictRatio) as [(r & -> & Hr)|[-> _]];
    [|discriminate].
  destruct (flt (F r) d) eqn:E; [|intros _; exists r; split; [exact Hr|right; split; [exact E|reflexivity]]].
  rewrite lift_bind.
  destruct (lookup_outcome cle dictChromosome) as [(c & -> & Hc)|[-> _]];
    [|discriminate].
  intros _. exists r. split; auto. left. eauto.
Qed.

Lemma amp_txt_duplication_ok (cle : string) :
  outcome (amp_txt_duplication dictChromosome u dictRatio cle) = Ok tt ->
  exists r,
    get cle dictRatio = Some r /\
    ((fge (F r) u = true /\
      exists chr, get cle dictChromosome = Some chr /\
        written (amp_txt_duplication dictChromosome u dictRatio cle) =
        [Amp_txt_duplication chr cle r]) \/
     (fge (F r) u = false /\
      written (amp_txt_duplication dictChromosome u dictRatio cle) = [])).
Proof.
  unfold amp_txt_duplication. rewrite lift_bind.
  destruct (lookup_outcome cle dictRatio) as [(r & -> & Hr)|[-> _]];
    [|discriminate].
  destruct (fge (F r) u) eqn:E; [|intros _; exists r; split; [exact Hr|right; split; [exact E|reflexivity]]].
  rewrite lift_bind.
  destruct (lookup_outcome cle dictChromosome) as [(c & -> & Hc)|[-> _]];
    [|discriminate].
  intros _. exists r. split; auto. left. eauto.
Qed.




End AmpliconFacts.


(** ** Dictionaries *)

Lemma get_set {V : Type} (k k' : string) (v : V) (d : dict V) :
  get k (set k' v d) = if String.eqb k k' then Some v else get k d.
Proof.
  induction d as [|[k0 v0] d IH]; simpl.
  - reflexivity.
  - destruct (String.eqb_spec k' k0) as [->|Hne]; simpl.
    + destruct (String.eqb k k0); reflexivity.
    + rewrite IH. destruct (String.eqb_spec k k0) as [->|Hne'].
      * destruct (String.eqb_spec k0 k'); congruence.
      * reflexivity.
Qed.

Lemma get_set_eq {V : Type} (k : string) (v : V) (d : dict V) :
  get k (set k v d) = Some v.
Proof. now rewrite get_set, String.eqb_refl. Qed.

Lemma get_set_neq {V : Type} (k k' : string) (v : V) (d : dict V) :
  k <> k' -> get k (set k' v d) = get k d.
Proof.
  intros H. rewrite get_set. now destruct (String.eqb_spec k k').
Qed.

Lemma keys_set {V : Type} (k : string) (v : V) (d : dict V) :
  forall k', In k' (keys (set k v d)) <-> k' = k \/ In k' (keys d).
Proof.
  unfold keys. induction d as [|[k0 v0] d IH]; simpl; intros k'.
  - intuition.
  - destruct (String.eqb_spec k k0) as [->|Hne]; simpl.
    + intuition.
    + rewrite IH. intuition.
Qed.

Lemma NoDup_keys_set {V : Type} (k : string) (v : V) (d : dict V) :
  NoDup (keys d) -> NoDup (keys (set k v d)).
Proof.
  unfold keys. induction d as [|[k0 v0] d IH]; simpl; intros H.
  - repeat constructor. intros [].
  - inversion H as [|? ? Hnin Hnd]; subst.
    destruct (String.eqb_spec k k0) as [->|Hne]; simpl.
    + now constructor.
    + constructor; auto.
      intros Hin. apply (keys_set k v d) in Hin.
      destruct Hin as [Heq|Hin]; [congruence | now apply Hnin].
Qed.

Lemma get_in_keys {V : Type} (k : string) (d : dict V) :
  In k (keys d) <-> get k d <> None.
Proof.
  unfold keys. induction d as [|[k0 v0] d IH]; simpl.
  - intuition.
  - destruct (String.eqb_spec k k0) as [->|Hne].
    + split; [discriminate | auto].
    + rewrite <- IH. intuition congruence.
Qed.

Lemma in_get {V : Type} (k : string) (v : V) (d : dict V) :
  NoDup (keys d) -> In (k, v) d -> get k d = Some v.
Proof.
  unfold keys. induction d as [|[k0 v0] d IH]; simpl; intros Hnd Hin.
  - contradiction.
  - inversion Hnd as [|? ? Hnin Hnd']; subst.
    destruct Hin as [Heq|Hin].
    + inversion Heq; subst. now rewrite String.eqb_refl.
    + destruct (String.eqb_spec k k0) as [->|Hne]; auto.
      exfalso. apply Hnin. apply in_map_iff. now exists (k0, v).
Qed.

Lemma get_in {V : Type} (k : string) (v : V) (d : dict V) :
  get k d = Some v -> In (k, v) d.
Proof.
  induction d as [|[k0 v0] d IH]; simpl; [discriminate|].
  destruct (String.eqb_spec k k0) as [->|Hne]; intros H.
  - left. congruence.
  - right. auto.
Qed.

(** ** Normalisation and ratio *)


Lemma moy_Norm_rows_ok (col : list (string * Z)) :
  forall rows d0 d,
    moy_Norm_rows col rows d0 = Ok d ->
    NoDup (keys d0) ->
    NoDup (keys d) /\
    (forall k, In k (keys d) <-> In k (keys d0) \/ In k (map row_key rows)) /\
    (forall k, ~ In k (map row_key rows) -> get k d = get k d0) /\
    (NoDup (map row_key rows) ->
     forall id v, In (id, v) rows ->
       somme_colonnePatientX col - v <> 0 /\
       get (replace_dot0 id) d =
       Some (inject_Z v / inject_Z (somme_colonnePatientX col - v))%Q).
Proof.
  induction rows as [|[id0 v0] rows IH]; simpl; intros d0 d H Hd0.
  - inversion H; subst. repeat split; auto; try tauto; contradiction.
  - destruct (Z.eqb_spec (somme_colonnePatientX col - v0) 0) as [|Hnz];
      [discriminate|].
    destruct (IH _ _ H (NoDup_keys_set _ _ _ Hd0)) as (Hnd & Hk & Hg & Hv).
    split; [exact Hnd|]. split; [|split].
    + intros k. rewrite Hk, keys_set. unfold row_key at 2. simpl.
      intuition congruence.
    + intros k Hnin. rewrite Hg by tauto.
      apply get_set_neq. unfold row_key in Hnin. simpl in Hnin. intuition.
    + intros Hnodup id v Hin. inversion Hnodup as [|? ? Hnin Hnd']; subst.
      destruct Hin as [Heq|Hin].
      * inversion Heq; subst. split; auto.
        rewrite Hg by exact Hnin. apply get_set_eq.
      * now apply Hv.
Qed.

Lemma ratio_items_ok (temoins : dict Q) :
  forall items d0 d,
    ratio_items temoins items d0 = Ok d ->
    (forall k, In k (keys d) <-> In k (keys d0) \/ In k (keys items)) /\
    (forall k, ~ In k (keys items) -> get k d = get k d0) /\
    (NoDup (keys items) ->
     forall k val, In (k, val) items ->
       exists t, get k temoins = Some t /\ ~ (t == 0)%Q /\
                 get k d = Some (round3 (val / t))).
Proof.
  unfold keys.
  induction items as [|[k0 v0] items IH]; simpl; intros d0 d H.
  - inversion H; subst. repeat split; auto; try tauto; contradiction.
  - destruct (lookup_outcome k0 temoins) as [(t & Hl & Ht)|[Hl _]];
      rewrite Hl in H; simpl in H; [|discriminate].
    destruct (Qeq_bool t 0) eqn:Et; [discriminate|].
    destruct (IH _ _ H) as (Hk & Hg & Hv).
    split; [|split].
    + intros k. rewrite Hk. fold (keys (set k0 (round3 (v0 / t)) d0)).
      rewrite keys_set. unfold keys. intuition congruence.
    + intros k Hnin. rewrite Hg by tauto. apply get_set_neq. intuition.
    + intros Hnodup k val Hin. inversion Hnodup as [|? ? Hnin Hnd']; subst.
      destruct Hin as [Heq|Hin].
      * inversion Heq; subst. exists t. split; auto. split.
        -- intros Hz. apply Qeq_bool_iff in Hz. congruence.
        -- rewrite Hg by exact Hnin. apply get_set_eq.
      * now apply Hv.
Qed.

Lemma mbind_written_in {A B : Type} (m : M A) (f : A -> M B) (ev : event) :
  In ev (written (mbind m f)) ->
  In ev (written m) \/ exists a, outcome m = Ok a /\ In ev (written (f a)).
Proof.
  destruct m as [l [a|e]]; simpl; auto.
  destruct (f a) as [l' r] eqn:E; simpl.
  intros H. apply in_app_or in H. destruct H; auto.
  right. exists a. rewrite E. auto.
Qed.











(** ** Zero denominator *)

Lemma moy_Norm_rows_zero (col : list (string * Z)) :
  forall rows d0,
    (exists id v, In (id, v) rows /\ somme_colonnePatientX col - v = 0) ->
    moy_Norm_rows col rows d0 = Raise ZeroDivisionError.
Proof.
  induction rows as [|[id0 v0] rows IH]; simpl; intros d0 (id & v & Hin & Hz).
  - contradiction.
  - destruct (Z.eqb_spec (somme_colonnePatientX col - v0) 0) as [|Hnz];
      [reflexivity|].
    destruct Hin as [Heq|Hin].
    + inversion Heq; subst. contradiction.
    + apply IH. eauto.
Qed.


Lemma amp_stage_written dictChromosome temoins d u items ev :
  forall matrix varPat,
    In ev (written (amp_stage dictChromosome temoins d u items varPat matrix)) ->
    exists j patient,
      nth_error matrix j = Some patient /\
      In ev (written (amp_patient dictChromosome temoins d u items
                        (varPat + j) patient)).
Proof.
  induction matrix as [|p matrix IH]; simpl; intros varPat H; [contradiction|].
  apply mbind_written_in in H. destruct H as [H|(w & _ & H)].
  - exists 0%nat, p. rewrite Nat.add_0_r. auto.
  - apply mbind_written_in in H. destruct H as [H|(ws & _ & [])].
    destruct (IH _ H) as (j & q & Hj & Hq).
    exists (S j), q. rewrite Nat.add_succ_r. auto.
Qed.

Lemma amp_stage_ok dictChromosome temoins d u items :
  forall matrix varPat v,
    outcome (amp_stage dictChromosome temoins d u items varPat matrix) = Ok v ->
    forall j patient,
      nth_error matrix j = Some patient ->
      exists w, outcome (amp_patient dictChromosome temoins d u items
                           (varPat + j) patient) = Ok w.
Proof.
  induction matrix as [|p matrix IH]; simpl; intros varPat v H j patient Hj.
  - destruct j; discriminate.
  - apply mbind_outcome_ok in H. destruct H as (w & Hw & H & _).
    apply mbind_outcome_ok in H. destruct H as (ws & Hws & _ & _).
    destruct j as [|j]; simpl in Hj.
    + inversion Hj; subst. rewrite Nat.add_0_r. eauto.
    + rewrite Nat.add_succ_r. apply (IH (S varPat) ws Hws j patient Hj).
Qed.

(** C4, as the code has it.  When some amplicon of a sample has
    [sample total - read count = 0], the normalisation of that sample raises
    Python's [ZeroDivisionError]; nothing is written for the sample, the run
    ends with an exception, and whatever the run has written was written
    by the amplicon stage of another sample. *)
Theorem zero_denominator_ZeroDivisionError (col : list (string * Z))
    (id : string) (raw_count : Z)
    (Hin : In (id, raw_count) col)
    (Hz : somme_colonnePatientX col - raw_count = 0) :
  moy_Norm_dict_patient col = Raise ZeroDivisionError /\
  (forall dictChromosome temoins d u items varPat patient,
      amp_patient dictChromosome temoins d u items varPat (patient, col) =
      ([], Raise ZeroDivisionError)) /\
  (forall inp u d matrix j patient,
      build_matrix (dictAmpliGene (fichierListeOrdonnee inp))
        (listOrdonneeAMP (fichierListeOrdonnee inp)) (rawData inp) = Ok matrix ->
      nth_error matrix j = Some (patient, col) ->
      (exists e, outcome (cnv_script_karim inp u d) = Raise e) /\
      (forall ev, In ev (written (cnv_script_karim inp u d)) ->
         exists j' p',
           j' <> j /\ nth_error matrix j' = Some p' /\
           In ev (written (amp_patient (dictChrm (fichierOrdonnee inp))
                             (moy_Norm_TemoinsPorphy (fichierTemoin inp)) d u
                             (listeOrdonneeAmpli (fichierOrdonnee inp))
                             (2 + j') p')))).
Proof.
  assert (Hraise : moy_Norm_dict_patient col = Raise ZeroDivisionError).
  { apply moy_Norm_rows_zero. eauto. }
  assert (Hpat : forall dictChromosome temoins d u items varPat patient,
             amp_patient dictChromosome temoins d u items varPat (patient, col) =
             ([], Raise ZeroDivisionError)).
  { intros. unfold amp_patient, compute_dictRatio. simpl.
    rewrite Hraise. reflexivity. }
  split; [exact Hraise|]. split; [exact Hpat|].
  intros inp u d matrix j patient Hm Hj.
  unfold cnv_script_karim. rewrite Hm, lift_bind.
  set (stage := amp_stage _ _ _ _ _ _ _).
  destruct (outcome stage) as [v|e] eqn:Es.
  - destruct (amp_stage_ok _ _ _ _ _ _ _ _ Es j _ Hj) as [w Hw].
    rewrite Hpat in Hw. discriminate.
  - rewrite (mbind_written_raise _ _ _ Es). split; [exists e; reflexivity|].
    simpl. intros ev Hev. apply amp_stage_written in Hev.
    destruct Hev as (j' & p' & Hj' & Hev).
    exists j', p'. split; [|auto].
    intros ->. rewrite Hj in Hj'. inversion Hj'; subst.
    rewrite Hpat in Hev. destruct Hev.
Qed.

Lemma zero_denominator_ZeroDivisionError_witness :
  In ("A1", 5) col_single /\
  somme_colonnePatientX col_single - 5 = 0 /\
  moy_Norm_dict_patient col_single = Raise ZeroDivisionError.
Proof.
  assert (Hin : In ("A1", 5) col_single) by (left; reflexivity).
  assert (Hz : somme_colonnePatientX col_single - 5 = 0) by reflexivity.
  split; [exact Hin|]. split; [exact Hz|].
  exact (proj1 (zero_denominator_ZeroDivisionError col_single "A1" 5 Hin Hz)).
Defined.

(** C4 as stated fails: the sample [col_single] has an amplicon whose
    denominator is zero, and its normalisation does not raise [RatioError]. *)
Lemma zero_denominator_not_RatioError :
  (exists id raw_count,
      In (id, raw_count) col_single /\
      somme_colonnePatientX col_single - raw_count = 0) /\
  moy_Norm_dict_patient col_single <> Raise "RatioError".
Proof.
  split.
  - exists "A1", 5. split; [left|]; reflexivity.
  - vm_compute. discriminate.
Qed.

(** ** Control means *)





(** ** Coverage matrix *)

Lemma fold_left_set_keys {R V : Type} (kf : R -> string) (vf : R -> V)
    (l : list R) :
  forall d0 k,
    In k (keys (fold_left (fun d r => set (kf r) (vf r) d) l d0)) <->
    In k (keys d0) \/ In k (map kf l).
Proof.
  induction l as [|r l IH]; simpl; intros d0 k.
  - tauto.
  - rewrite IH, keys_set. intuition congruence.
Qed.

Lemma dictAmpliGene_has_panel (sheet : list ListeOrdonnee_row) (a : string) :
  In a (listOrdonneeAMP sheet) -> get a (dictAmpliGene sheet) <> None.
Proof.
  intros H. apply get_in_keys. unfold dictAmpliGene.
  apply fold_left_set_keys. now right.
Qed.

Lemma matrix_column_outcome (genes : dict string) (pat : dict cell) :
  forall amps,
    (forall a, In a amps -> get a genes <> None) ->
    (exists col,
        matrix_column genes pat amps = Ok col /\ map fst col = amps /\
        forall a n, In (a, n) col -> get a pat = Some (IntText n)) \/
    (matrix_column genes pat amps = Raise KeyError /\
     exists a, In a amps /\ get a pat = None) \/
    (matrix_column genes pat amps = Raise ValueError /\
     exists a, In a amps /\ get a pat = Some NotInt).
Proof.
  induction amps as [|a amps IH]; simpl; intros Hg.
  - left. exists []. repeat split. contradiction.
  - destruct (lookup_outcome a genes) as [(g & -> & _)|[_ Hn]];
      [|exfalso; apply (Hg a); auto].
    simpl.
    destruct (lookup_outcome a pat) as [(c & -> & Hc)|[-> Hn]]; simpl;
      [|right; left; split; eauto].
    destruct c as [n|]; simpl; [|right; right; split; eauto].
    destruct IH as [(col & -> & Hf & Hall)|[(-> & b & Hb & Hn)|(-> & b & Hb & Hn)]];
      [auto| | |]; simpl.
    + left. exists ((a, n) :: col). split; [reflexivity|]. split.
      * simpl. now rewrite Hf.
      * intros a' n' [Heq|Hin]; [inversion Heq; subst; auto | eauto].
    + right. left. split; eauto.
    + right. right. split; eauto.
Qed.

(** C9, as the code has it.  The patient's column of the coverage matrix is
    built iff every panel amplicon has a row whose count [int()] accepts,
    whatever the sign of the count; a missing amplicon raises [KeyError] and
    a count that is not an integer raises [ValueError]. *)
Theorem coverage_matrix_unchecked (sheet : list ListeOrdonnee_row)
    (rows : list (string * cell)) :
  let amps := listOrdonneeAMP sheet in
  let pat := dictPatientEnCours rows in
  ((exists col,
       matrix_column (dictAmpliGene sheet) pat amps = Ok col /\
       map fst col = amps /\
       forall a n, In (a, n) col -> get a pat = Some (IntText n)) \/
   (matrix_column (dictAmpliGene sheet) pat amps = Raise KeyError /\
    exists a, In a amps /\ get a pat = None) \/
   (matrix_column (dictAmpliGene sheet) pat amps = Raise ValueError /\
    exists a, In a amps /\ get a pat = Some NotInt)) /\
  ((forall a, In a amps -> exists n : Z, get a pat = Some (IntText n)) ->
   exists col, matrix_column (dictAmpliGene sheet) pat amps = Ok col).
Proof.
  intros amps pat.
  pose proof (matrix_column_outcome (dictAmpliGene sheet) pat amps
                (dictAmpliGene_has_panel sheet)) as H.
  split; [exact H|].
  intros Hall.
  destruct H as [(col & Hc & _)|[(_ & a & Ha & Hn)|(_ & a & Ha & Hn)]]; eauto;
    destruct (Hall a Ha) as [n Hsome]; congruence.
Qed.

(** C9 as stated fails: a sample that lacks a panel amplicon stops the
    construction with [KeyError], not [CoverageError], and a sample with a
    negative count is accepted. *)
Lemma coverage_matrix_no_CoverageError :
  get "G1_b" (dictPatientEnCours [("G1_a", IntText 10)]) = None /\
  build_matrix (dictAmpliGene (fichierListeOrdonnee run_G1))
    (listOrdonneeAMP (fichierListeOrdonnee run_G1))
    [("P1", [("G1_a", IntText 10)])] = Raise KeyError /\
  build_matrix (dictAmpliGene (fichierListeOrdonnee run_G1))
    (listOrdonneeAMP (fichierListeOrdonnee run_G1))
    [("P1", [("G1_a", IntText 10)])] <> Raise "CoverageError" /\
  build_matrix (dictAmpliGene (fichierListeOrdonnee run_G1))
    (listOrdonneeAMP (fichierListeOrdonnee run_G1))
    [("P1", [("G1_a", IntText (-10)); ("G1_b", IntText 30)])] =
  Ok [("P1", [("G1_a", -10); ("G1_b", 30)])].
Proof.
  repeat split; try reflexivity; vm_compute; discriminate.
Qed.

(** ** Substrings *)

Lemma prefix_iff (sub s : string) :
  String.prefix sub s = true <-> exists post, s = (sub ++ post)%string.
Proof.
  revert s. induction sub as [|a sub IH]; intros s; simpl.
  - destruct s; split; eauto.
  - destruct s as [|b s]; simpl.
    + split; [discriminate | intros [post H]; discriminate].
    + destruct (ascii_dec a b) as [->|Hne].
      * rewrite IH. split; intros [post H]; exists post; congruence.
      * split; [discriminate | intros [post H]; congruence].
Qed.

Lemma find_from_eq (sub s : string) (i : Z) :
  find_from sub s i =
  if String.prefix sub s then i
  else match s with
       | EmptyString => -1
       | String _ s' => find_from sub s' (i + 1)
       end.
Proof. destruct s; reflexivity. Qed.

(** [find] answers -1 exactly when [sub] does not occur in [s]. *)
Lemma find_substring (s sub : string) :
  find s sub <> -1 <-> exists pre post, s = (pre ++ sub ++ post)%string.
Proof.
  unfold find.
  assert (H : forall i, 0 <= i ->
              (find_from sub s i <> -1 <->
               exists pre post, s = (pre ++ sub ++ post)%string)).
  { induction s as [|c s IH]; intros i Hi; rewrite find_from_eq.
    - destruct (String.prefix sub "") eqn:E.
      + split; [|intros _; lia]. intros _. apply prefix_iff in E.
        destruct E as [post E]. exists "", post. exact E.
      + split; [congruence|]. intros (pre & post & Heq).
        destruct pre; simpl in Heq; [|discriminate].
        assert (String.prefix sub "" = true) by (apply prefix_iff; eauto).
        congruence.
    - destruct (String.prefix sub (String c s)) eqn:E.
      + split; [|intros _; lia]. intros _. apply prefix_iff in E.
        destruct E as [post E]. exists "", post. exact E.
      + rewrite IH by lia. split.
        * intros (pre & post & ->). exists (String c pre), post. reflexivity.
        * intros (pre & post & Heq). destruct pre as [|c' pre]; simpl in Heq.
          -- assert (String.prefix sub (String c s) = true)
               by (apply prefix_iff; eauto).
             congruence.
          -- inversion Heq; subst. eauto. }
  apply H. lia.
Qed.

(** ** Gene means *)


Lemma gene_scan_spec (gene : string) :
  forall rows listeGene dictChromoso,
    fst (gene_scan gene rows listeGene dictChromoso) =
    listeGene ++ gene_ratios gene rows /\
    (forall g, g <> gene ->
       get g (snd (gene_scan gene rows listeGene dictChromoso)) =
       get g dictChromoso) /\
    (get gene (snd (gene_scan gene rows listeGene dictChromoso)) = None <->
     get gene dictChromoso = None /\ gene_ratios gene rows = []).
Proof.
  unfold gene_ratios.
  induction rows as [|row rows IH]; simpl; intros acc dc.
  - rewrite app_nil_r. repeat split; tauto.
  - destruct (gene_match gene row).
    + destruct (IH (acc ++ [snd row]) (set gene (fst (fst row)) dc))
        as (H1 & H2 & H3).
      rewrite H1, <- app_assoc. simpl. split; [reflexivity|]. split.
      * intros g Hg. rewrite H2 by exact Hg. now apply get_set_neq.
      * rewrite H3, get_set_eq. split; intros [? ?]; discriminate.
    + apply IH.
Qed.

Lemma gene_means_spec (rows : list (string * string * Q)) :
  forall genes dictRatioParGene dictChromoso,
    (forall g, In g genes ->
       get g (fst (gene_means rows genes dictRatioParGene dictChromoso)) =
       Some (numpy_mean (gene_ratios g rows))) /\
    (forall g, ~ In g genes ->
       get g (fst (gene_means rows genes dictRatioParGene dictChromoso)) =
       get g dictRatioParGene /\
       get g (snd (gene_means rows genes dictRatioParGene dictChromoso)) =
       get g dictChromoso) /\
    (forall g, In g genes ->
       (get g (snd (gene_means rows genes dictRatioParGene dictChromoso)) = None <->
        get g dictChromoso = None /\ gene_ratios g rows = [])).
Proof.
  induction genes as [|gene genes IH]; simpl; intros drg dc.
  - repeat split; contradiction.
  - destruct (gene_scan gene rows [] dc) as [listeGene dc1] eqn:Es.
    destruct (gene_scan_spec gene rows [] dc) as (S1 & S2 & S3).
    rewrite Es in S1, S2, S3. simpl in S1, S2, S3. subst listeGene.
    destruct (IH (set gene (numpy_mean (gene_ratios gene rows)) drg) dc1)
      as (H1 & H2 & H3).
    split; [|split].
    + intros g [<-|Hin].
      * destruct (in_dec string_dec gene genes) as [Hi|Hn]; [auto|].
        destruct (H2 _ Hn) as [-> _]. apply get_set_eq.
      * auto.
    + intros g Hn. destruct (H2 g) as [-> ->]; [tauto|].
      split; [apply get_set_neq | apply S2]; intuition.
    + intros g Hin.
      destruct (in_dec string_dec g genes) as [Hi|Hn].
      * rewrite (H3 g Hi).
        destruct (string_dec g gene) as [->|Hne].
        -- rewrite S3. tauto.
        -- rewrite (S2 g Hne). tauto.
      * destruct Hin as [<-|Hin]; [|contradiction].
        destruct (H2 _ Hn) as [_ ->]. exact S3.
Qed.







(** ** Genes without amplicon *)













(** ** Identity markers *)

Lemma str_in_In (g : string) (l : list string) :
  str_in g l = true <-> In g l.
Proof.
  unfold str_in. rewrite existsb_exists. split.
  - intros (x & Hx & Heq). apply String.eqb_eq in Heq. now subst.
  - intros H. exists g. split; [exact H | apply String.eqb_refl].
Qed.

(** C7, as the code has it.  For a gene of the identity-marker list, the
    mean is computed as for any gene and written to the per-gene sheet at
    the gene's row; the cell is written without colour whatever the mean,
    where a gene outside the list has the colour of its branch; the gene has
    no line in the anomaly text and no point in the plot. *)
Theorem suppression_withholds_highlight (d u : pyfloat)
    (dictRatioParGene : dict pyfloat) (dictChromoso : dict string)
    (numPat ligne : nat) (g chr : string) (r : pyfloat)
    (Hsup : In g listeGeneNonInterets)
    (Hr : get g dictRatioParGene = Some r)
    (Hc : get g dictChromoso = Some chr) :
  (forall rows genes,
      In g genes ->
      get g (fst (gene_means rows genes [] [])) =
      Some (numpy_mean (gene_ratios g rows))) /\
  gene_sheet_row d u dictRatioParGene dictChromoso numPat ligne g =
  ([Gene_row ligne numPat chr g r no_format], Ok tt) /\
  gene_txt_deletion d dictRatioParGene dictChromoso g = ([], Ok tt) /\
  gene_txt_duplication u dictRatioParGene dictChromoso g = ([], Ok tt) /\
  (forall abcisse st, gene_plot_step d u abcisse g r st = st) /\
  (forall g',
      ~ In g' listeGeneNonInterets ->
      get g' dictRatioParGene = Some r ->
      get g' dictChromoso = Some chr ->
      gene_sheet_row d u dictRatioParGene dictChromoso numPat ligne g' =
      ([Gene_row ligne numPat chr g' r (format_of (classify r d u))], Ok tt)).
Proof.
  assert (Hn : non_interet g = true) by now apply str_in_In.
  split; [intros; now apply gene_means_spec|].
  unfold gene_sheet_row, gene_txt_deletion, gene_txt_duplication,
    gene_plot_step, gene_format.
  rewrite !lift_bind. apply lookup_ok in Hr, Hc. rewrite Hr, Hn.
  rewrite !Bool.andb_false_r, lift_bind, Hc.
  repeat split.
  intros g' Hg' Hr' Hc'.
  assert (Hn' : non_interet g' = false).
  { apply Bool.not_true_iff_false. intros E. now apply str_in_In in E. }
  apply lookup_ok in Hr', Hc'.
  rewrite !lift_bind, Hr', lift_bind, Hc', Hn', !Bool.andb_true_r.
  unfold classify. now destruct (flt r d), (fge r u).
Qed.

Lemma suppression_withholds_highlight_witness :
  In "PENTA" listeGeneNonInterets /\
  gene_sheet_row (F (1 # 2)) (F (176 # 100)) [("PENTA", F (3 # 10))]
    [("PENTA", "1")] 2 1 "PENTA" =
  ([Gene_row 1 2 "1" "PENTA" (F (3 # 10)) no_format], Ok tt).
Proof.
  assert (Hin : In "PENTA" listeGeneNonInterets) by (left; reflexivity).
  split; [exact Hin|].
  exact (proj1 (proj2 (suppression_withholds_highlight (F (1 # 2))
                         (F (176 # 100)) [("PENTA", F (3 # 10))]
                         [("PENTA", "1")] 2 1 "PENTA" "1" (F (3 # 10))
                         Hin eq_refl eq_refl))).
Defined.

(** C7 as stated fails: with the same mean 0.3 below the deletion
    threshold, the row of the identity marker PENTA is written as a Normal
    row, the row of G1 as a Deletion. *)
Lemma suppressed_gene_written_as_normal :
  In "PENTA" listeGeneNonInterets /\
  ~ In "G1" listeGeneNonInterets /\
  gene_sheet_row (F (1 # 2)) (F (176 # 100))
    [("PENTA", F (3 # 10)); ("G1", F (3 # 10))] [("PENTA", "1"); ("G1", "1")]
    2 1 "PENTA" =
  ([Gene_row 1 2 "1" "PENTA" (F (3 # 10)) no_format], Ok tt) /\
  gene_sheet_row (F (1 # 2)) (F (176 # 100))
    [("PENTA", F (3 # 10)); ("G1", F (3 # 10))] [("PENTA", "1"); ("G1", "1")]
    2 1 "G1" =
  ([Gene_row 1 2 "1" "G1" (F (3 # 10)) cell_formatRED], Ok tt) /\
  no_format <> cell_formatRED.
Proof.
  split; [left; reflexivity|].
  split; [rewrite <- str_in_In; vm_compute; discriminate|].
  repeat split; discriminate.
Qed.

(** ** Gene plot *)









(** ** The thresholds and the outcome of the run *)

Lemma for_each_outcome_decide {A : Type} (body : A -> M unit)
    (p : A -> bool) (e : string) (l : list A) :
  (forall a, In a l -> outcome (body a) = if p a then Ok tt else Raise e) ->
  outcome (for_each body l) = if forallb p l then Ok tt else Raise e.
Proof.
  induction l as [|a l IH]; simpl; intros Hb; [reflexivity|].
  rewrite mbind_outcome, (Hb a) by now left.
  destruct (p a); simpl; [|reflexivity].
  apply IH. intros b Hbl. apply Hb. now right.
Qed.

Lemma for_each_from_outcome_decide {A : Type} (body : nat -> A -> M unit)
    (p : A -> bool) (e : string) (l : list A) :
  (forall i a, In a l -> outcome (body i a) = if p a then Ok tt else Raise e) ->
  forall i,
    outcome (for_each_from body i l) = if forallb p l then Ok tt else Raise e.
Proof.
  induction l as [|a l IH]; simpl; intros Hb i; [reflexivity|].
  rewrite mbind_outcome, (Hb i a) by now left.
  destruct (p a); simpl; [|reflexivity].
  apply IH. intros j b Hbl. apply Hb. now right.
Qed.

Lemma for_each_outcome_ok {A : Type} (body : A -> M unit) (l : list A) :
  (forall a, In a l -> outcome (body a) = Ok tt) ->
  outcome (for_each body l) = Ok tt.
Proof.
  intros H. apply for_each_all_ok. now apply Forall_forall.
Qed.

Lemma amp_sheet_row_outcome dictChromosome d u dictRatio varPat row item :
  outcome (amp_sheet_row dictChromosome d u dictRatio varPat row item) =
  if amp_known dictChromosome dictRatio item then Ok tt else Raise KeyError.
Proof.
  unfold amp_sheet_row, amp_known, lookup. rewrite lift_bind.
  destruct (get item dictRatio); [|reflexivity].
  rewrite lift_bind. now destruct (get item dictChromosome).
Qed.

Lemma amp_txt_deletion_outcome dictChromosome d dictRatio cle :
  amp_known dictChromosome dictRatio cle = true ->
  outcome (amp_txt_deletion dictChromosome d dictRatio cle) = Ok tt.
Proof.
  unfold amp_txt_deletion, amp_known, lookup. rewrite lift_bind.
  destruct (get cle dictRatio) as [r|]; [|discriminate].
  destruct (get cle dictChromosome); [|discriminate]. intros _.
  destruct (flt (F r) d); reflexivity.
Qed.

Lemma amp_txt_duplication_outcome dictChromosome u dictRatio cle :
  amp_known dictChromosome dictRatio cle = true ->
  outcome (amp_txt_duplication dictChromosome u dictRatio cle) = Ok tt.
Proof.
  unfold amp_txt_duplication, amp_known, lookup. rewrite lift_bind.
  destruct (get cle dictRatio) as [r|]; [|discriminate].
  destruct (get cle dictChromosome); [|discriminate]. intros _.
  destruct (fge (F r) u); reflexivity.
Qed.

Lemma amp_report_outcome dictChromosome d u dictRatio varPat patient items :
  outcome (amp_report dictChromosome d u dictRatio varPat patient items) =
  if forallb (amp_known dictChromosome dictRatio) items
  then Ok tt else Raise KeyError.
Proof.
  unfold amp_report, amp_sheet.
  rewrite mbind_outcome.
  rewrite (for_each_from_outcome_decide _ (amp_known dictChromosome dictRatio)
             KeyError)
    by (intros; apply amp_sheet_row_outcome).
  destruct (forallb (amp_known dictChromosome dictRatio) items) eqn:E;
    [|reflexivity].
  rewrite forallb_forall in E.
  rewrite !mbind_outcome. simpl.
  rewrite for_each_outcome_ok
    by (intros; apply amp_txt_deletion_outcome; auto).
  rewrite for_each_outcome_ok
    by (intros; apply amp_txt_duplication_outcome; auto).
  reflexivity.
Qed.

Lemma amp_patient_outcome dictChromosome temoins d u items varPat patient :
  outcome (amp_patient dictChromosome temoins d u items varPat patient) =
  match compute_dictRatio temoins (snd patient) with
  | Ok dictRatio =>
      if forallb (amp_known dictChromosome dictRatio) items
      then Ok (fst patient, sheet_rows dictChromosome dictRatio items)
      else Raise KeyError
  | Raise e => Raise e
  end.
Proof.
  unfold amp_patient. rewrite lift_bind.
  destruct (compute_dictRatio temoins (snd patient)) as [dr|e];
    [|reflexivity].
  rewrite mbind_outcome, amp_report_outcome.
  now destruct (forallb (amp_known dictChromosome dr) items).
Qed.


Section GeneOutcome.

Variable d u : pyfloat.
Variable dictRatioParGene : dict pyfloat.
Variable dictChromoso : dict string.
Variable numPat : nat.
Variable genes : list string.

(** What [gene_means] guarantees: every gene has a mean, and a mean that
    is a number comes with a chromosome. *)
Hypothesis Hmeans :
  forall g, In g genes ->
    exists r, get g dictRatioParGene = Some r /\
              (get g dictChromoso = None -> is_nan r = true).

Lemma gene_txt_deletion_outcome (g : string) :
  In g genes ->
  outcome (gene_txt_deletion d dictRatioParGene dictChromoso g) = Ok tt.
Proof.
  intros Hin. destruct (Hmeans g Hin) as (r & Hr & Hnan).
  unfold gene_txt_deletion, lookup. rewrite lift_bind, Hr.
  destruct (flt r d) eqn:E; [|reflexivity].
  destruct (non_interet g); [reflexivity|].
  cbn [andb negb]. rewrite lift_bind.
  destruct (get g dictChromoso); [reflexivity|].
  rewrite (flt_not_nan _ _ E) in Hnan. discriminate Hnan. reflexivity.
Qed.

Lemma gene_txt_duplication_outcome (g : string) :
  In g genes ->
  outcome (gene_txt_duplication u dictRatioParGene dictChromoso g) = Ok tt.
Proof.
  intros Hin. destruct (Hmeans g Hin) as (r & Hr & Hnan).
  unfold gene_txt_duplication, lookup. rewrite lift_bind, Hr.
  destruct (fge r u) eqn:E; [|reflexivity].
  destruct (non_interet g); [reflexivity|].
  cbn [andb negb]. rewrite lift_bind.
  destruct (get g dictChromoso); [reflexivity|].
  rewrite (fge_not_nan _ _ E) in Hnan. discriminate Hnan. reflexivity.
Qed.

Lemma gene_sheet_row_outcome (ligne : nat) (g : string) :
  In g genes ->
  outcome (gene_sheet_row d u dictRatioParGene dictChromoso numPat ligne g) =
  if gene_known dictChromoso g then Ok tt else Raise KeyError.
Proof.
  intros Hin. destruct (Hmeans g Hin) as (r & Hr & _).
  unfold gene_sheet_row, gene_known, lookup. rewrite lift_bind, Hr.
  rewrite lift_bind. now destruct (get g dictChromoso).
Qed.

Lemma gene_plot_loop_returns :
  forall l abcisse st,
    (forall g, In g l -> In g genes) ->
    exists st', gene_plot_loop d u dictRatioParGene abcisse l st = Ok st'.
Proof.
  induction l as [|g l IH]; simpl; intros abcisse st Hl; [eauto|].
  destruct (Hmeans g (Hl g (or_introl eq_refl))) as (r & Hr & _).
  unfold lookup. rewrite Hr. simpl. apply IH. auto.
Qed.

Lemma gene_report_outcome (patient : string) :
  outcome (gene_report d u dictRatioParGene dictChromoso numPat patient genes) =
  if forallb (gene_known dictChromoso) genes then Ok tt else Raise KeyError.
Proof.
  unfold gene_report.
  rewrite !mbind_outcome. simpl.
  rewrite for_each_outcome_ok by apply gene_txt_deletion_outcome.
  rewrite for_each_outcome_ok by apply gene_txt_duplication_outcome.
  rewrite (for_each_from_outcome_decide _ (gene_known dictChromoso) KeyError)
    by (intros; now apply gene_sheet_row_outcome).
  destruct (forallb (gene_known dictChromoso) genes); [|reflexivity].
  destruct (gene_plot_loop_returns genes 1%nat (mkGroups [] [] [] []))
    as [st' ->]; auto.
Qed.

End GeneOutcome.

Lemma gene_patient_outcome d u genes numPat patient :
  outcome (gene_patient d u genes numPat patient) =
  if forallb (gene_known (snd (gene_means (snd patient) genes [] []))) genes
  then Ok tt else Raise KeyError.
Proof.
  unfold gene_patient.
  destruct (gene_means_spec (snd patient) genes [] []) as (H1 & _ & H3).
  destruct (gene_means (snd patient) genes [] []) as [drg dc]. simpl in *.
  apply gene_report_outcome.
  intros g Hin. exists (numpy_mean (gene_ratios g (snd patient))).
  split; [auto|].
  intros Hn. apply (H3 g Hin) in Hn. destruct Hn as [_ ->]. reflexivity.
Qed.




(** * Further properties of the script *)

(** ** Lines of the raw coverage files *)

Lemma split_char_cons (sep : ascii) (s : string) :
  exists field fields, split_char sep s = field :: fields.
Proof.
  induction s as [|c s (f & fs & IH)]; simpl; [eauto|].
  destruct (Ascii.eqb c sep); [eauto|]. rewrite IH. eauto.
Qed.

Lemma join_split_char (sep : ascii) (s : string) :
  join_char sep (split_char sep s) = s.
Proof.
  induction s as [|c s IH]; simpl; [reflexivity|].
  destruct (Ascii.eqb_spec c sep) as [->|Hne].
  - destruct (split_char_cons sep s) as (f & fs & E).
    rewrite E in *. simpl. f_equal. exact IH.
  - destruct (split_char_cons sep s) as (f & fs & E).
    rewrite E in *. destruct fs; simpl in *; now rewrite <- IH.
Qed.

Lemma length_split_char (sep : ascii) (s : string) :
  List.length (split_char sep s) = S (count_char sep s).
Proof.
  induction s as [|c s IH]; simpl; [reflexivity|].
  destruct (Ascii.eqb c sep); simpl; [now rewrite IH|].
  destruct (split_char_cons sep s) as (f & fs & E).
  rewrite E in *. exact IH.
Qed.

Lemma split_char_fields (sep c : ascii) (s : string) :
  (c = sep \/ has_char c s = false) ->
  Forall (fun field => has_char c field = false) (split_char sep s).
Proof.
  induction s as [|c' s IH]; simpl; intros H.
  - repeat constructor.
  - destruct (Ascii.eqb_spec c' sep) as [->|Hne].
    + constructor; [reflexivity|]. apply IH.
      destruct H as [->|H]; [now left|].
      right. now apply Bool.orb_false_iff in H.
    + assert (Hc : Ascii.eqb c' c = false /\ (c = sep \/ has_char c s = false)).
      { destruct H as [->|H].
        - split; [now apply Ascii.eqb_neq | now left].
        - apply Bool.orb_false_iff in H. destruct H. auto. }
      destruct Hc as [Hc Hs]. specialize (IH Hs).
      destruct (split_char_cons sep s) as (f & fs & E). rewrite E in *.
      inversion IH; subst. constructor; [|assumption].
      simpl. rewrite Hc. assumption.
Qed.

Lemma remove_newlines_clean (s : string) :
  has_char "010" (remove_newlines s) = false.
Proof.
  induction s as [|c s IH]; cbn [remove_newlines has_char]; [reflexivity|].
  destruct (Ascii.eqb c "010") eqn:E; cbn [has_char]; [assumption|].
  now rewrite E.
Qed.

Lemma remove_newlines_count (c : ascii) (s : string) :
  c <> "010"%char ->
  count_char c (remove_newlines s) = count_char c s.
Proof.
  intros Hc.
  induction s as [|c' s IH]; cbn [remove_newlines count_char]; [reflexivity|].
  destruct (Ascii.eqb_spec c' "010") as [->|Hne]; cbn [count_char].
  - destruct (Ascii.eqb_spec "010"%char c); [congruence|assumption].
  - now rewrite IH.
Qed.

(** X1.  The cells of a line of a raw coverage file: one more than the line
    has tabs, none of them containing a tab or a newline, and joined by
    tabs they give the line back without its newlines. *)
Theorem row_cells_round_trip (row : string) :
  join_char "009" (row_cells row) = remove_newlines row /\
  List.length (row_cells row) = S (count_char "009" row) /\
  Forall (fun cell => has_char "009" cell = false /\
                      has_char "010" cell = false) (row_cells row).
Proof.
  unfold row_cells. split; [apply join_split_char|]. split.
  - rewrite length_split_char, remove_newlines_count; [reflexivity|discriminate].
  - pose proof (split_char_fields "009" "009" (remove_newlines row)
                  (or_introl eq_refl)) as Ht.
    pose proof (split_char_fields "009" "010" (remove_newlines row)
                  (or_intror (remove_newlines_clean row))) as Hn.
    rewrite Forall_forall in *. auto.
Qed.

(** ** Patient names *)

Lemma split_dot_0_app (a b : string) :
  split_dot_0 (a ++ String "." b) = split_dot_0 a.
Proof.
  unfold split_dot_0. induction a as [|c a IH]; simpl; [reflexivity|].
  destruct (Ascii.eqb c "."); [reflexivity|].
  destruct (split_char_cons "." (a ++ String "." b)) as (f & fs & E).
  destruct (split_char_cons "." a) as (f' & fs' & E').
  rewrite E, E' in *. simpl in *. now rewrite IH.
Qed.

Lemma split_dot_0_no_dot (a : string) :
  has_char "." a = false -> split_dot_0 a = a.
Proof.
  unfold split_dot_0. induction a as [|c a IH]; simpl; [reflexivity|].
  intros H. apply Bool.orb_false_iff in H. destruct H as [Hc Ha].
  rewrite Hc. specialize (IH Ha).
  destruct (split_char_cons "." a) as (f & fs & E).
  rewrite E in *. simpl in *. now rewrite IH.
Qed.

Lemma split_dot_0_prefix (name : string) :
  exists rest,
    name = (split_dot_0 name ++ rest)%string /\
    (rest = EmptyString \/ exists rest', rest = String "." rest').
Proof.
  unfold split_dot_0. induction name as [|c a (rest & IH & Hr)]; simpl.
  - exists EmptyString. auto.
  - destruct (Ascii.eqb_spec c ".") as [->|Hne].
    + exists (String "." a). simpl. eauto.
    + destruct (split_char_cons "." a) as (f & fs & E).
      rewrite E in *. simpl in *. exists rest. split; [congruence|assumption].
Qed.

(** X2.  The name of a patient, taken from the copy of the coverage file,
    is the name of the patient's directory cut at its first dot: it contains
    no dot, does not depend on the name of the coverage file, and is the name
    of the directory when that has no dot. *)
Theorem patient_name_from_directory (listRepPatient basename : string) :
  let monID_patient := split_dot_0 (file_to_name listRepPatient basename) in
  monID_patient = split_dot_0 listRepPatient /\
  has_char "." monID_patient = false /\
  (exists rest, listRepPatient = (monID_patient ++ rest)%string /\
                (rest = EmptyString \/ exists rest', rest = String "." rest')) /\
  (has_char "." listRepPatient = false -> monID_patient = listRepPatient).
Proof.
  unfold file_to_name. simpl. rewrite split_dot_0_app.
  split; [reflexivity|]. split; [|split].
  - unfold split_dot_0.
    pose proof (split_char_fields "." "." listRepPatient (or_introl eq_refl)) as H.
    destruct (split_char_cons "." listRepPatient) as (f & fs & E).
    rewrite E in *. now inversion H.
  - apply split_dot_0_prefix.
  - apply split_dot_0_no_dot.
Qed.

(** ** Rows with the same identifier *)

Lemma fold_left_set_get {R V : Type} (kf : R -> string) (vf : R -> V)
    (k : string) (l : list R) :
  forall d0,
    get k (fold_left (fun d r => set (kf r) (vf r) d) l d0) =
    match List.find (fun r => String.eqb k (kf r)) (rev l) with
    | Some r => Some (vf r)
    | None => get k d0
    end.
Proof.
  induction l as [|r l IH] using rev_ind; intros d0; [reflexivity|].
  rewrite fold_left_app, rev_unit. simpl. rewrite get_set.
  destruct (String.eqb k (kf r)); [reflexivity | apply IH].
Qed.

(** X3.  When an identifier occurs in several rows of a sheet, the
    dictionary built from the sheet holds the value of the last of these
    rows: the read count of a patient's file, the control mean, the
    chromosome; an identifier that occurs in no row has no entry. *)
Theorem last_row_wins :
  (forall rows a,
      get a (dictPatientEnCours rows) =
      option_map snd (List.find (fun r => String.eqb a (fst r)) (rev rows))) /\
  (forall fichierTemoin k,
      get k (moy_Norm_TemoinsPorphy fichierTemoin) =
      option_map snd
        (List.find (fun r => String.eqb k (replace_dot0 (fst r)))
           (rev fichierTemoin))) /\
  (forall fichierOrdonnee k,
      get k (dictChrm fichierOrdonnee) =
      option_map fst
        (List.find (fun r => String.eqb k (replace_dot0 (snd r)))
           (rev fichierOrdonnee))).
Proof.
  split; [|split]; intros l k.
  - unfold dictPatientEnCours. rewrite fold_left_set_get.
    now destruct (List.find _ _).
  - unfold moy_Norm_TemoinsPorphy.
    rewrite (fold_left_set_get (fun r => replace_dot0 (fst r)) snd).
    now destruct (List.find _ _).
  - unfold dictChrm.
    rewrite (fold_left_set_get (fun r => replace_dot0 (snd r)) fst).
    now destruct (List.find _ _).
Qed.

(** ** Removal of ".0" *)

Lemma no_dot0_tail (c : ascii) (a : string) :
  find (String c a) ".0" = -1 -> find a ".0" = -1.
Proof.
  intros H. destruct (Z.eq_dec (find a ".0") (-1)) as [|Hne]; [assumption|].
  exfalso. apply find_substring in Hne. destruct Hne as (pre & post & ->).
  assert (Hf : find (String c (pre ++ ".0" ++ post)) ".0" <> -1).
  { apply find_substring. exists (String c pre), post. reflexivity. }
  contradiction.
Qed.

Lemma no_dot0_head (a : string) :
  find (String "." (String "0" a)) ".0" <> -1.
Proof. apply find_substring. exists EmptyString, a. reflexivity. Qed.

Lemma replace_dot0_id (s : string) :
  find s ".0" = -1 -> replace_dot0 s = s.
Proof.
  induction s as [|c s IH]; intros H; [reflexivity|].
  pose proof (no_dot0_tail _ _ H) as Hs.
  cbn [replace_dot0]. destruct s as [|c' s']; [reflexivity|].
  destruct (Ascii.eqb_spec c ".") as [->|]; cbn [andb];
    [|now rewrite (IH Hs)].
  destruct (Ascii.eqb_spec c' "0") as [->|]; [|now rewrite (IH Hs)].
  exfalso. now apply (no_dot0_head s').
Qed.

Lemma replace_dot0_first (a b : string) :
  find a ".0" = -1 ->
  replace_dot0 (a ++ ".0" ++ b) = (a ++ replace_dot0 b)%string.
Proof.
  induction a as [|c a IH]; intros H.
  - reflexivity.
  - pose proof (no_dot0_tail _ _ H) as Ha.
    change (String c a ++ ".0" ++ b)%string
      with (String c (a ++ ".0" ++ b)%string).
    cbn [replace_dot0].
    destruct (a ++ ".0" ++ b)%string as [|c' s'] eqn:E.
    { destruct a; discriminate. }
    destruct (Ascii.eqb_spec c ".") as [->|]; cbn [andb];
      [|rewrite (IH Ha); reflexivity].
    destruct (Ascii.eqb_spec c' "0") as [->|];
      [|rewrite (IH Ha); reflexivity].
    exfalso. destruct a as [|c'' a'']; simpl in E; [discriminate|].
    inversion E; subst. now apply (no_dot0_head a'').
Qed.

(** X4.  [.replace(".0", "")] on an identifier: a text without ".0" is kept
    as it is, and the first ".0" is removed wherever it stands, at the end
    of the text or inside it, the rest being treated in the same way. *)
Theorem replace_dot0_removes_every_dot0 :
  (forall s, find s ".0" = -1 -> replace_dot0 s = s) /\
  (forall a b,
      find a ".0" = -1 ->
      replace_dot0 (a ++ ".0" ++ b) = (a ++ replace_dot0 b)%string) /\
  (forall a, find a ".0" = -1 -> replace_dot0 (a ++ ".0") = a).
Proof.
  split; [exact replace_dot0_id|]. split; [exact replace_dot0_first|].
  intros a H.
  replace (a ++ ".0")%string with (a ++ ".0" ++ "")%string by reflexivity.
  rewrite (replace_dot0_first a "" H). simpl.
  clear H. induction a; simpl; congruence.
Qed.

(** ** The ratio as a function of the read counts *)

Lemma round_half_even_comp (q q' : Q) :
  (q == q')%Q -> round_half_even q = round_half_even q'.
Proof.
  intros H. unfold round_half_even.
  assert (Hfl : Qnum q / Zpos (Qden q) = Qnum q' / Zpos (Qden q')).
  { pose proof (Qfloor_comp q q' H) as Hf. now destruct q, q'. }
  rewrite <- Hfl. set (fl := Qnum q / Zpos (Qden q)) in *.
  assert (Hc : (2 * (Qnum q mod Zpos (Qden q)) ?= Zpos (Qden q)) =
               (2 * (Qnum q' mod Zpos (Qden q')) ?= Zpos (Qden q'))).
  { rewrite (Z.mod_eq (Qnum q)), (Z.mod_eq (Qnum q')) by lia.
    fold fl. rewrite <- Hfl. unfold Qeq in H.
    rewrite (Zmult_compare_compat_r _ _ (Zpos (Qden q'))) by lia.
    rewrite (Zmult_compare_compat_r (2 * (Qnum q' - _)) _ (Zpos (Qden q)))
      by lia.
    f_equal; nia. }
  now rewrite Hc.
Qed.

Lemma round3_comp (q q' : Q) : (q == q')%Q -> round3 q = round3 q'.
Proof.
  intros H. unfold round3. f_equal. apply round_half_even_comp.
  now rewrite H.
Qed.















(** ** Accuracy of the ratio *)

Lemma round3_zero (q : Q) : (q == 0)%Q -> (round3 q == 0)%Q.
Proof.
  intros H. rewrite (round3_comp q 0 H). reflexivity.
Qed.

Lemma flt_Qeq_l (a b : Q) (d : pyfloat) :
  (a == b)%Q -> flt (F a) d = flt (F b) d.
Proof.
  intros H. destruct d as [c| | |]; simpl; auto.
  unfold Qltb. now rewrite H.
Qed.



(** X8.  An amplicon without reads has the ratio 0, and is written as a
    Deletion for every deletion threshold above 0. *)
Theorem zero_reads_ratio_zero (temoins : dict Q) (col : list (string * Z))
    (dictRatio : dict Q) (id : string)
    (Hkeys : NoDup (map row_key col))
    (Hok : compute_dictRatio temoins col = Ok dictRatio)
    (Hin : In (id, 0) col) :
  exists r,
    get (replace_dot0 id) dictRatio = Some r /\ (r == 0)%Q /\
    forall d u, flt (F 0) d = true -> classify (F r) d u = Deletion.
Proof.
  unfold compute_dictRatio in Hok.
  destruct (moy_Norm_dict_patient col) as [dn|e] eqn:En; [|discriminate].
  simpl in Hok.
  destruct (moy_Norm_rows_ok col col [] dn En (NoDup_nil _))
    as (Hnd & _ & _ & Hv).
  destruct (ratio_items_ok temoins dn [] dictRatio Hok) as (_ & _ & Hr).
  destruct (Hv Hkeys id 0 Hin) as [_ Hget].
  destruct (Hr Hnd _ _ (get_in _ _ _ Hget)) as (t & Ht & Hnz & Hratio).
  eexists. split; [exact Hratio|].
  assert (Hz : (round3 (inject_Z 0 /
                        inject_Z (somme_colonnePatientX col - 0) / t) == 0)%Q).
  { apply round3_zero. unfold Qdiv. rewrite !Qmult_0_l. reflexivity. }
  split; [exact Hz|].
  intros d u Hd. apply classify_cases. now rewrite (flt_Qeq_l _ 0 d Hz).
Qed.

Lemma zero_reads_ratio_zero_witness :
  NoDup (map row_key [("A1", 0); ("A2", 30); ("A3", 10)]) /\
  In ("A1", 0) [("A1", 0); ("A2", 30); ("A3", 10)] /\
  exists dictRatio r,
    compute_dictRatio [("A1", 1%Q); ("A2", 2%Q); ("A3", 1%Q)]
      [("A1", 0); ("A2", 30); ("A3", 10)] = Ok dictRatio /\
    get (replace_dot0 "A1") dictRatio = Some r /\ (r == 0)%Q.
Proof.
  assert (Hk : NoDup (map row_key [("A1", 0); ("A2", 30); ("A3", 10)])).
  { repeat constructor; simpl; intuition discriminate. }
  assert (Hin : In ("A1", 0) [("A1", 0); ("A2", 30); ("A3", 10)])
    by (left; reflexivity).
  split; [exact Hk|]. split; [exact Hin|].
  eexists.
  assert (Hok : compute_dictRatio [("A1", 1%Q); ("A2", 2%Q); ("A3", 1%Q)]
                  [("A1", 0); ("A2", 30); ("A3", 10)] = Ok _)
    by (vm_compute; reflexivity).
  destruct (zero_reads_ratio_zero _ _ _ "A1" Hk Hok Hin) as (r & Hr & Hz & _).
  exists r. split; [exact Hok|]. split; [exact Hr | exact Hz].
Defined.

(** ** Layout of the amplicon report *)

Lemma flat_map_singletons {A B : Type} (R : A -> B -> Prop)
    (f : A -> list B) (l : list A) :
  Forall (fun a => exists b, f a = [b] /\ R a b) l ->
  Forall2 R l (flat_map f l).
Proof.
  induction 1 as [|a l (b & Hf & Hb) _ IH]; simpl.
  - constructor.
  - rewrite Hf. constructor; auto.
Qed.

Lemma flat_map_filter {A B : Type} (R : A -> B -> Prop) (p : A -> bool)
    (f : A -> list B) (l : list A) :
  Forall (fun a => (p a = true /\ exists b, f a = [b] /\ R a b) \/
                   (p a = false /\ f a = [])) l ->
  Forall2 R (filter p l) (flat_map f l).
Proof.
  induction 1 as [|a l [(Hp & b & Hf & Hb)|(Hp & Hf)] _ IH]; simpl.
  - constructor.
  - rewrite Hp, Hf. constructor; auto.
  - rewrite Hp, Hf. exact IH.
Qed.

Lemma emit_bind {A : Type} (ev : event) (f : unit -> M A) :
  written (mbind (emit ev) f) = ev :: written (f tt) /\
  outcome (mbind (emit ev) f) = outcome (f tt).
Proof. unfold emit. simpl. destruct (f tt). auto. Qed.

(** X9.  What a patient's amplicon report consists of when it returns: one
    row per amplicon of the ordered list, numbered from 1 in the order of
    the list, then the name of the patient, then in the anomaly text the
    deletions, all before the duplications, each group in the order of the
    list, then the plot. *)
Theorem amp_report_layout (dictChromosome : dict string) (d u : pyfloat)
    (dictRatio : dict Q) (varPat : nat) (patient : string)
    (items : list string)
    (Hok : outcome (amp_report dictChromosome d u dictRatio varPat patient items)
           = Ok tt) :
  exists rows dels dups,
    written (amp_report dictChromosome d u dictRatio varPat patient items) =
    rows ++ [Amp_header varPat patient; Amp_txt_patient patient] ++
    dels ++ dups ++
    [Amp_txt_end;
     Amp_plot patient (amp_plot_group d u dictRatio Deletion items)
       (amp_plot_group d u dictRatio Duplication items)
       (amp_plot_group d u dictRatio Normal items)] /\
    Forall2
      (fun p ev =>
         exists r chr,
           get (snd p) dictRatio = Some r /\
           get (snd p) dictChromosome = Some chr /\
           ev = Amp_row (fst p) varPat chr (snd p) r
                  (format_of (classify (F r) d u)))
      (combine (seq 1 (List.length items)) items) rows /\
    Forall2
      (fun cle ev =>
         exists r chr,
           get cle dictRatio = Some r /\ get cle dictChromosome = Some chr /\
           ev = Amp_txt_deletion chr cle r)
      (filter (ratio_below dictRatio d) items) dels /\
    Forall2
      (fun cle ev =>
         exists r chr,
           get cle dictRatio = Some r /\ get cle dictChromosome = Some chr /\
           ev = Amp_txt_duplication chr cle r)
      (filter (ratio_at_least dictRatio u) items) dups.
Proof.
  unfold amp_report in *.
  apply mbind_outcome_ok in Hok. destruct Hok as ([] & Hsheet & Hok & ->).
  destruct (emit_bind (Amp_header varPat patient)
              (fun _ => _ <~ emit (Amp_txt_patient patient) ;;
                        _ <~ for_each (amp_txt_deletion dictChromosome d dictRatio) items ;;
                        _ <~ for_each (amp_txt_duplication dictChromosome u dictRatio) items ;;
                        _ <~ emit Amp_txt_end ;;
                        emit (Amp_plot patient
                                (amp_plot_group d u dictRatio Deletion items)
                                (amp_plot_group d u dictRatio Duplication items)
                                (amp_plot_group d u dictRatio Normal items))))
    as [-> Ho1].
  rewrite Ho1 in Hok. clear Ho1.
  destruct (emit_bind (Amp_txt_patient patient)
              (fun _ => _ <~ for_each (amp_txt_deletion dictChromosome d dictRatio) items ;;
                        _ <~ for_each (amp_txt_duplication dictChromosome u dictRatio) items ;;
                        _ <~ emit Amp_txt_end ;;
                        emit (Amp_plot patient
                                (amp_plot_group d u dictRatio Deletion items)
                                (amp_plot_group d u dictRatio Duplication items)
                                (amp_plot_group d u dictRatio Normal items))))
    as [-> Ho2].
  rewrite Ho2 in Hok. clear Ho2.
  apply mbind_outcome_ok in Hok. destruct Hok as ([] & Hdel & Hok & ->).
  apply mbind_outcome_ok in Hok. destruct Hok as ([] & Hdup & _ & ->).
  exists (written (amp_sheet dictChromosome d u dictRatio varPat items)),
    (written (for_each (amp_txt_deletion dictChromosome d dictRatio) items)),
    (written (for_each (amp_txt_duplication dictChromosome u dictRatio) items)).
  split; [reflexivity|]. split; [|split].
  - unfold amp_sheet in *. apply for_each_from_ok in Hsheet.
    destruct Hsheet as [Hall ->]. apply flat_map_singletons.
    eapply Forall_impl; [|exact Hall]. intros [n item] Hp.
    destruct (amp_sheet_row_ok _ _ _ _ _ _ _ Hp) as (r & c & Hr & Hc & Hw).
    simpl in *. eauto 8.
  - apply for_each_ok in Hdel. destruct Hdel as [Hall ->].
    apply flat_map_filter. eapply Forall_impl; [|exact Hall]. intros cle Hp.
    unfold ratio_below.
    destruct (amp_txt_deletion_ok _ _ _ _ Hp)
      as (r & Hr & [(Hlt & c & Hc & Hw)|(Hlt & Hw)]); rewrite Hr.
    + left. split; [exact Hlt|]. eauto 8.
    + right. auto.
  - apply for_each_ok in Hdup. destruct Hdup as [Hall ->].
    apply flat_map_filter. eapply Forall_impl; [|exact Hall]. intros cle Hp.
    unfold ratio_at_least.
    destruct (amp_txt_duplication_ok _ _ _ _ Hp)
      as (r & Hr & [(Hlt & c & Hc & Hw)|(Hlt & Hw)]); rewrite Hr.
    + left. split; [exact Hlt|]. eauto 8.
    + right. auto.
Qed.

Lemma amp_report_layout_witness :
  outcome (amp_report [("A1", "1")] (F (1 # 2)) (F (176 # 100))
             [("A1", 333 # 1000)]%Q 2 "P1" ["A1"]) = Ok tt /\
  exists rows dels dups,
    written (amp_report [("A1", "1")] (F (1 # 2)) (F (176 # 100))
               [("A1", 333 # 1000)]%Q 2 "P1" ["A1"]) =
    rows ++ [Amp_header 2 "P1"; Amp_txt_patient "P1"] ++ dels ++ dups ++
    [Amp_txt_end;
     Amp_plot "P1"
       (amp_plot_group (F (1 # 2)) (F (176 # 100)) [("A1", 333 # 1000)]%Q
          Deletion ["A1"])
       (amp_plot_group (F (1 # 2)) (F (176 # 100)) [("A1", 333 # 1000)]%Q
          Duplication ["A1"])
       (amp_plot_group (F (1 # 2)) (F (176 # 100)) [("A1", 333 # 1000)]%Q
          Normal ["A1"])].
Proof.
  assert (Hok : outcome (amp_report [("A1", "1")] (F (1 # 2)) (F (176 # 100))
                           [("A1", 333 # 1000)]%Q 2 "P1" ["A1"]) = Ok tt)
    by reflexivity.
  split; [exact Hok|].
  destruct (amp_report_layout _ _ _ _ _ _ _ Hok) as (rows & dels & dups & H & _).
  exists rows, dels, dups. exact H.
Defined.

(** ** Outcome of the amplicon report in a run *)

Lemma dictChrm_has_items (fichierOrdonnee : list (string * string))
    (item : string) :
  In item (listeOrdonneeAmpli fichierOrdonnee) ->
  get item (dictChrm fichierOrdonnee) <> None.
Proof.
  intros H. apply get_in_keys. unfold dictChrm.
  apply (fold_left_set_keys (fun r => replace_dot0 (snd r)) fst). now right.
Qed.

Lemma sheet_rows_items (dictChromosome : dict string) (dictRatio : dict Q)
    (items : list string) :
  forallb (amp_known dictChromosome dictRatio) items = true ->
  map (fun row => snd (fst row)) (sheet_rows dictChromosome dictRatio items) =
  items /\
  forall chr item r,
    In (chr, item, r) (sheet_rows dictChromosome dictRatio items) ->
    get item dictChromosome = Some chr /\ get item dictRatio = Some r.
Proof.
  unfold amp_known.
  induction items as [|item items IH]; simpl; intros H.
  - split; [reflexivity | contradiction].
  - apply Bool.andb_true_iff in H. destruct H as [Hk Hrest].
    destruct (IH Hrest) as [IH1 IH2].
    destruct (get item dictRatio) as [r|] eqn:Er; [|discriminate].
    destruct (get item dictChromosome) as [c|] eqn:Ec; [|discriminate].
    simpl. rewrite IH1. split; [reflexivity|].
    intros chr it r' [Heq|Hin]; [inversion Heq; subst; auto | auto].
Qed.

(** X10.  In a run, the chromosome of an amplicon of the ordered list is
    always found; the report of a patient whose ratios could be computed
    returns iff every amplicon of the ordered list has a ratio, that is,
    occurs in the coverage matrix, and raises [KeyError] otherwise.  When it
    returns, it hands one row per amplicon to the gene level, in the order of
    the list, with the amplicon's chromosome and ratio. *)
Theorem amp_patient_outcome_in_run (fichierOrdonnee : list (string * string))
    (temoins : dict Q) (d u : pyfloat) (varPat : nat)
    (patient : string * list (string * Z)) :
  let dictChromosome := dictChrm fichierOrdonnee in
  let items := listeOrdonneeAmpli fichierOrdonnee in
  (forall item, In item items -> get item dictChromosome <> None) /\
  match compute_dictRatio temoins (snd patient) with
  | Raise e =>
      outcome (amp_patient dictChromosome temoins d u items varPat patient) =
      Raise e
  | Ok dictRatio =>
      ((forall item, In item items -> get item dictRatio <> None) ->
       exists rows,
         outcome (amp_patient dictChromosome temoins d u items varPat patient) =
         Ok (fst patient, rows) /\
         map (fun row => snd (fst row)) rows = items /\
         forall chr item r,
           In (chr, item, r) rows ->
           get item dictChromosome = Some chr /\ get item dictRatio = Some r) /\
      ((exists item, In item items /\ get item dictRatio = None) ->
       outcome (amp_patient dictChromosome temoins d u items varPat patient) =
       Raise KeyError)
  end.
Proof.
  intros dc items. split; [apply dictChrm_has_items|].
  rewrite amp_patient_outcome.
  destruct (compute_dictRatio temoins (snd patient)) as [dr|e]; [|reflexivity].
  assert (Hknown : forall item, In item items ->
             amp_known dc dr item = true <-> get item dr <> None).
  { intros item Hin. unfold amp_known.
    pose proof (dictChrm_has_items fichierOrdonnee item Hin) as Hc.
    fold dc in Hc.
    destruct (get item dr), (get item dc); split; congruence. }
  split.
  - intros Hall.
    assert (Hf : forallb (amp_known dc dr) items = true).
    { apply forallb_forall. intros item Hin. apply Hknown; auto. }
    rewrite Hf. eexists. split; [reflexivity|].
    now apply sheet_rows_items.
  - intros (item & Hin & Hnone).
    destruct (forallb (amp_known dc dr) items) eqn:Hf; [|reflexivity].
    rewrite forallb_forall in Hf. specialize (Hf item Hin).
    apply (Hknown item Hin) in Hf. contradiction.
Qed.

(** ** Outcome of the gene report *)

Lemma gene_ratios_nil (g : string) (rows : list (string * string * Q)) :
  gene_ratios g rows = [] <->
  forall row, In row rows -> gene_match g row = false.
Proof.
  unfold gene_ratios. induction rows as [|row rows IH]; simpl.
  - split; auto. contradiction.
  - destruct (gene_match g row) eqn:E; simpl.
    + split; [discriminate|]. intros H.
      specialize (H row (or_introl eq_refl)). congruence.
    + rewrite IH. split.
      * intros H r [<-|Hr]; auto.
      * intros H r Hr. apply H. now right.
Qed.

(** X11.  The gene report of a patient returns iff every gene of the list
    is contained in the amplicon text of some row of the ratio sheet; it
    raises nothing but [KeyError]. *)
Theorem gene_patient_returns_iff (d u : pyfloat) (genes : list string)
    (numPat : nat) (patient : string) (rows : list (string * string * Q)) :
  (outcome (gene_patient d u genes numPat (patient, rows)) = Ok tt <->
   forall g, In g genes ->
             exists row, In row rows /\ gene_match g row = true) /\
  (outcome (gene_patient d u genes numPat (patient, rows)) = Ok tt \/
   outcome (gene_patient d u genes numPat (patient, rows)) = Raise KeyError).
Proof.
  rewrite gene_patient_outcome. simpl.
  destruct (gene_means_spec rows genes [] []) as (_ & _ & H3).
  assert (Hk : forall g, In g genes ->
             (gene_known (snd (gene_means rows genes [] [])) g = true <->
              exists row, In row rows /\ gene_match g row = true)).
  { intros g Hin. unfold gene_known. specialize (H3 g Hin).
    rewrite gene_ratios_nil in H3. simpl in H3.
    destruct (get g (snd (gene_means rows genes [] []))) as [c|].
    - split; [intros _|reflexivity].
      destruct (existsb (gene_match g) rows) eqn:E.
      + apply existsb_exists in E. exact E.
      + exfalso. assert (Hn : @None string = None) by reflexivity.
        assert (Hall : forall row, In row rows -> gene_match g row = false).
        { intros row Hr. destruct (gene_match g row) eqn:Em; auto.
          assert (existsb (gene_match g) rows = true)
            by (apply existsb_exists; eauto).
          congruence. }
        destruct H3 as [_ H3]. specialize (H3 (conj eq_refl Hall)).
        discriminate.
    - split; [discriminate|]. intros (row & Hr & Hm).
      destruct H3 as [H3 _]. destruct (H3 eq_refl) as [_ Hall].
      rewrite (Hall row Hr) in Hm. discriminate. }
  destruct (forallb (gene_known (snd (gene_means rows genes [] []))) genes)
    eqn:Hf.
  - split; [|now left]. split; [|reflexivity]. intros _ g Hin.
    rewrite forallb_forall in Hf. apply Hk; auto.
  - split; [|now right]. split; [discriminate|]. intros Hall.
    assert (forallb (gene_known (snd (gene_means rows genes [] []))) genes = true).
    { apply forallb_forall. intros g Hin. apply Hk; auto. }
    congruence.
Qed.

(** ** Layout of the gene report *)

Section GeneLayout.

Variable d u : pyfloat.
Variable dictRatioParGene : dict pyfloat.
Variable dictChromoso : dict string.
Variable numPat : nat.

Lemma gene_sheet_row_ok (ligne : nat) (g : string) :
  outcome (gene_sheet_row d u dictRatioParGene dictChromoso numPat ligne g) = Ok tt ->
  exists r chr,
    get g dictRatioParGene = Some r /\ get g dictChromoso = Some chr /\
    written (gene_sheet_row d u dictRatioParGene dictChromoso numPat ligne g) =
    [Gene_row ligne numPat chr g r (gene_format d u g r)].
Proof.
  unfold gene_sheet_row. rewrite !lift_bind.
  destruct (lookup_outcome g dictRatioParGene) as [(r & -> & Hr)|[-> _]];
    [|discriminate].
  rewrite lift_bind.
  destruct (lookup_outcome g dictChromoso) as [(c & -> & Hc)|[-> _]];
    [|discriminate].
  intros _. exists r, c. auto.
Qed.

Lemma gene_txt_deletion_ok (g : string) :
  outcome (gene_txt_deletion d dictRatioParGene dictChromoso g) = Ok tt ->
  (gene_listed_deletion dictRatioParGene d g = true /\
   exists r chr,
     get g dictRatioParGene = Some r /\ get g dictChromoso = Some chr /\
     written (gene_txt_deletion d dictRatioParGene dictChromoso g) =
     [Gene_txt_deletion chr g r]) \/
  (gene_listed_deletion dictRatioParGene d g = false /\
   written (gene_txt_deletion d dictRatioParGene dictChromoso g) = []).
Proof.
  unfold gene_txt_deletion, gene_listed_deletion. rewrite lift_bind.
  destruct (lookup_outcome g dictRatioParGene) as [(r & -> & Hr)|[-> _]];
    [|discriminate].
  rewrite Hr.
  destruct (flt r d && negb (non_interet g))%bool; [|auto].
  rewrite lift_bind.
  destruct (lookup_outcome g dictChromoso) as [(c & -> & Hc)|[-> _]];
    [|discriminate].
  intros _. left. split; [reflexivity|]. exists r, c. auto.
Qed.

Lemma gene_txt_duplication_ok (g : string) :
  outcome (gene_txt_duplication u dictRatioParGene dictChromoso g) = Ok tt ->
  (gene_listed_duplication dictRatioParGene u g = true /\
   exists r chr,
     get g dictRatioParGene = Some r /\ get g dictChromoso = Some chr /\
     written (gene_txt_duplication u dictRatioParGene dictChromoso g) =
     [Gene_txt_duplication chr g r]) \/
  (gene_listed_duplication dictRatioParGene u g = false /\
   written (gene_txt_duplication u dictRatioParGene dictChromoso g) = []).
Proof.
  unfold gene_txt_duplication, gene_listed_duplication. rewrite lift_bind.
  destruct (lookup_outcome g dictRatioParGene) as [(r & -> & Hr)|[-> _]];
    [|discriminate].
  rewrite Hr.
  destruct (fge r u && negb (non_interet g))%bool; [|auto].
  rewrite lift_bind.
  destruct (lookup_outcome g dictChromoso) as [(c & -> & Hc)|[-> _]];
    [|discriminate].
  intros _. left. split; [reflexivity|]. exists r, c. auto.
Qed.

End GeneLayout.

(** X12.  What a patient's gene report consists of when it returns: the
    name of the patient, the deletions, then the duplications, then one row
    of the gene sheet per gene of the list, identity markers included,
    numbered from 1 in the order in which the genes are iterated, then the
    plot. *)
Theorem gene_report_layout (d u : pyfloat) (dictRatioParGene : dict pyfloat)
    (dictChromoso : dict string) (numPat : nat) (patient : string)
    (genes : list string)
    (Hok : outcome (gene_report d u dictRatioParGene dictChromoso numPat
                      patient genes) = Ok tt) :
  exists dels dups rows st,
    written (gene_report d u dictRatioParGene dictChromoso numPat patient genes) =
    [Gene_txt_patient patient] ++ dels ++ dups ++ rows ++
    [Gene_txt_end;
     Gene_plot patient (g1 st) (g2 st) (g3 st) (dictSticks st)] /\
    gene_plot_loop d u dictRatioParGene 1 genes (mkGroups [] [] [] []) = Ok st /\
    Forall2
      (fun g ev =>
         exists r chr,
           get g dictRatioParGene = Some r /\ get g dictChromoso = Some chr /\
           ev = Gene_txt_deletion chr g r)
      (filter (gene_listed_deletion dictRatioParGene d) genes) dels /\
    Forall2
      (fun g ev =>
         exists r chr,
           get g dictRatioParGene = Some r /\ get g dictChromoso = Some chr /\
           ev = Gene_txt_duplication chr g r)
      (filter (gene_listed_duplication dictRatioParGene u) genes) dups /\
    Forall2
      (fun p ev =>
         exists r chr,
           get (snd p) dictRatioParGene = Some r /\
           get (snd p) dictChromoso = Some chr /\
           ev = Gene_row (fst p) numPat chr (snd p) r
                  (gene_format d u (snd p) r))
      (combine (seq 1 (List.length genes)) genes) rows.
Proof.
  unfold gene_report in *.
  destruct (emit_bind (Gene_txt_patient patient)
              (fun _ =>
                 _ <~ for_each (gene_txt_deletion d dictRatioParGene dictChromoso) genes ;;
                 _ <~ for_each (gene_txt_duplication u dictRatioParGene dictChromoso) genes ;;
                 _ <~ for_each_from
                        (gene_sheet_row d u dictRatioParGene dictChromoso numPat)
                        1%nat genes ;;
                 _ <~ emit Gene_txt_end ;;
                 st <~ lift (gene_plot_loop d u dictRatioParGene 1%nat genes
                               (mkGroups [] [] [] [])) ;;
                 emit (Gene_plot patient (g1 st) (g2 st) (g3 st) (dictSticks st))))
    as [-> Ho].
  rewrite Ho in Hok. clear Ho.
  apply mbind_outcome_ok in Hok. destruct Hok as ([] & Hdel & Hok & ->).
  apply mbind_outcome_ok in Hok. destruct Hok as ([] & Hdup & Hok & ->).
  apply mbind_outcome_ok in Hok. destruct Hok as ([] & Hrows & Hok & ->).
  destruct (emit_bind Gene_txt_end
              (fun _ =>
                 st <~ lift (gene_plot_loop d u dictRatioParGene 1%nat genes
                               (mkGroups [] [] [] [])) ;;
                 emit (Gene_plot patient (g1 st) (g2 st) (g3 st) (dictSticks st))))
    as [-> Ho].
  rewrite Ho in Hok. clear Ho.
  rewrite lift_bind in *.
  destruct (gene_plot_loop d u dictRatioParGene 1 genes (mkGroups [] [] [] []))
    as [st|e]; [|discriminate].
  exists (written (for_each (gene_txt_deletion d dictRatioParGene dictChromoso) genes)),
    (written (for_each (gene_txt_duplication u dictRatioParGene dictChromoso) genes)),
    (written (for_each_from
                (gene_sheet_row d u dictRatioParGene dictChromoso numPat)
                1%nat genes)),
    st.
  split; [reflexivity|]. split; [reflexivity|]. split; [|split].
  - apply for_each_ok in Hdel. destruct Hdel as [Hall ->].
    apply flat_map_filter. eapply Forall_impl; [|exact Hall]. intros g Hp.
    destruct (gene_txt_deletion_ok _ _ _ _ Hp)
      as [(Hl & r & c & Hr & Hc & Hw)|(Hl & Hw)]; [left|right]; eauto 8.
  - apply for_each_ok in Hdup. destruct Hdup as [Hall ->].
    apply flat_map_filter. eapply Forall_impl; [|exact Hall]. intros g Hp.
    destruct (gene_txt_duplication_ok _ _ _ _ Hp)
      as [(Hl & r & c & Hr & Hc & Hw)|(Hl & Hw)]; [left|right]; eauto 8.
  - apply for_each_from_ok in Hrows. destruct Hrows as [Hall ->].
    apply flat_map_singletons.
    eapply Forall_impl; [|exact Hall]. intros [n g] Hp.
    destruct (gene_sheet_row_ok _ _ _ _ _ _ _ Hp) as (r & c & Hr & Hc & Hw).
    simpl in *. eauto 8.
Qed.

Lemma gene_report_layout_witness :
  outcome (gene_report (F (1 # 2)) (F (176 # 100)) [("G1", F (3 # 10))]
             [("G1", "1")] 2 "P1" ["G1"]) = Ok tt /\
  exists dels dups rows st,
    written (gene_report (F (1 # 2)) (F (176 # 100)) [("G1", F (3 # 10))]
               [("G1", "1")] 2 "P1" ["G1"]) =
    [Gene_txt_patient "P1"] ++ dels ++ dups ++ rows ++
    [Gene_txt_end;
     Gene_plot "P1" (g1 st) (g2 st) (g3 st) (dictSticks st)].
Proof.
  assert (Hok : outcome (gene_report (F (1 # 2)) (F (176 # 100))
                           [("G1", F (3 # 10))] [("G1", "1")] 2 "P1" ["G1"])
                = Ok tt) by reflexivity.
  split; [exact Hok|].
  destruct (gene_report_layout _ _ _ _ _ _ _ Hok)
    as (dels & dups & rows & st & H & _).
  exists dels, dups, rows, st. exact H.
Defined.

(** ** Chromosome of a gene *)

Lemma find_app_last {A : Type} (p : A -> bool) (l : list A) (a : A) :
  List.find p (l ++ [a]) =
  match List.find p l with
  | Some x => Some x
  | None => if p a then Some a else None
  end.
Proof.
  induction l as [|b l IH]; simpl; [reflexivity|].
  destruct (p b); [reflexivity | exact IH].
Qed.

Lemma gene_scan_chr (gene : string) :
  forall rows listeGene dictChromoso,
    get gene (snd (gene_scan gene rows listeGene dictChromoso)) =
    match List.find (gene_match gene) (rev rows) with
    | Some row => Some (fst (fst row))
    | None => get gene dictChromoso
    end.
Proof.
  induction rows as [|row rows IH]; simpl; intros acc dc; [reflexivity|].
  rewrite find_app_last.
  destruct (gene_match gene row) eqn:E; rewrite IH;
    destruct (List.find (gene_match gene) (rev rows)); try reflexivity.
  apply get_set_eq.
Qed.

Lemma gene_means_chr (rows : list (string * string * Q)) (g : string) :
  forall genes dictRatioParGene dictChromoso,
    get g (snd (gene_means rows genes dictRatioParGene dictChromoso)) =
    if in_dec string_dec g genes
    then match List.find (gene_match g) (rev rows) with
         | Some row => Some (fst (fst row))
         | None => get g dictChromoso
         end
    else get g dictChromoso.
Proof.
  induction genes as [|gene genes IH]; intros drg dc; [reflexivity|].
  cbn [gene_means].
  destruct (gene_scan gene rows [] dc) as [listeGene dc1] eqn:Es.
  pose proof (gene_scan_chr gene rows [] dc) as Hc.
  destruct (gene_scan_spec gene rows [] dc) as (_ & Hother & _).
  rewrite Es in Hc, Hother. simpl in Hc, Hother.
  rewrite IH.
  destruct (in_dec string_dec g genes) as [Hi|Hn];
    destruct (in_dec string_dec g (gene :: genes)) as [Hi'|Hn'];
    try (exfalso; apply Hn'; now right).
  - destruct (string_dec g gene) as [->|Hne].
    + rewrite Hc. now destruct (List.find _ _).
    + now rewrite (Hother g Hne).
  - destruct Hi' as [<-|Hi']; [exact Hc | contradiction].
  - apply Hother. intros ->. apply Hn'. now left.
Qed.

(** X13.  The chromosome reported for a gene is that of the last row of the
    ratio sheet whose amplicon text contains the name of the gene; rows on
    other chromosomes that match earlier are not reported. *)
Theorem gene_chromosome_is_last_match (rows : list (string * string * Q))
    (genes : list string) (g : string) (Hin : In g genes) :
  get g (snd (gene_means rows genes [] [])) =
  option_map (fun row => fst (fst row))
    (List.find (gene_match g) (rev rows)).
Proof.
  rewrite gene_means_chr.
  destruct (in_dec string_dec g genes); [|contradiction].
  now destruct (List.find _ _).
Qed.

Lemma gene_chromosome_is_last_match_witness :
  In "TP53" ["TP53"; "TP53BP1"] /\
  get "TP53" (snd (gene_means rows_TP53 ["TP53"; "TP53BP1"] [] [])) = Some "15".
Proof.
  assert (Hin : In "TP53" ["TP53"; "TP53BP1"]) by (left; reflexivity).
  split; [exact Hin|].
  exact (gene_chromosome_is_last_match rows_TP53 _ "TP53" Hin).
Defined.

(** ** Labels of the gene plot *)

Lemma gene_plot_step_sticks (d u : pyfloat) (abcisse : nat) (geneNom : string)
    (r : pyfloat) (st : plot_groups) :
  dictSticks (gene_plot_step d u abcisse geneNom r st) =
  if gene_labelled d u geneNom r
  then set geneNom abcisse (dictSticks st)
  else dictSticks st.
Proof.
  unfold gene_plot_step, gene_labelled.
  destruct (non_interet geneNom); simpl.
  - now rewrite !Bool.andb_false_r.
  - rewrite !Bool.andb_true_r.
    destruct (flt r d); simpl; [reflexivity|].
    destruct (fge r u); simpl; [reflexivity|].
    now destruct (fgt r d && flt r u)%bool.
Qed.

Lemma gene_plot_loop_sticks (d u : pyfloat) (dictRatioParGene : dict pyfloat) :
  forall genes abcisse st st',
    gene_plot_loop d u dictRatioParGene abcisse genes st = Ok st' ->
    (forall g,
        In g (keys (dictSticks st')) <->
        In g (keys (dictSticks st)) \/
        (In g genes /\
         exists r, get g dictRatioParGene = Some r /\
                   gene_labelled d u g r = true)) /\
    (forall g x,
        get g (dictSticks st') = Some x ->
        get g (dictSticks st) = Some x \/
        exists i, x = (abcisse + i)%nat /\ nth_error genes i = Some g).
Proof.
  induction genes as [|gene genes IH]; simpl; intros abcisse st st' H.
  - inversion H; subst. split; [|auto].
    intros g. split; auto. intros [Hg|[[] _]]. exact Hg.
  - destruct (lookup_outcome gene dictRatioParGene) as [(r & Hl & Hr)|[Hl _]];
      rewrite Hl in H; simpl in H; [|discriminate].
    destruct (IH _ _ _ H) as [IH1 IH2].
    rewrite gene_plot_step_sticks in IH1, IH2. split.
    + intros g. rewrite IH1.
      destruct (gene_labelled d u gene r) eqn:El.
      * rewrite keys_set. split.
        -- intros [[->|Hg]|(Hg & r' & Hr' & Hl')]; eauto 8.
        -- intros [Hg|([<-|Hg] & r' & Hr' & Hl')]; eauto 8.
      * split.
        -- intros [Hg|(Hg & r' & Hr' & Hl')]; eauto 8.
        -- intros [Hg|([<-|Hg] & r' & Hr' & Hl')]; eauto 8. congruence.
    + intros g x Hx. destruct (IH2 g x Hx) as [Hg|(i & -> & Hi)].
      * destruct (gene_labelled d u gene r); auto.
        rewrite get_set in Hg.
        destruct (String.eqb_spec g gene) as [->|Hne]; auto.
        inversion Hg; subst. right. exists 0%nat. now rewrite Nat.add_0_r.
      * right. exists (S i). now rewrite Nat.add_succ_r.
Qed.

(** X14.  The gene plot labels, on the x axis, exactly the genes of the
    Deletion and Duplication groups: the genes that are no identity markers
    and whose mean is below the deletion threshold or at least the
    duplication threshold; the label stands at a position of the gene in
    the iteration. *)
Theorem gene_plot_labels (d u : pyfloat) (dictRatioParGene : dict pyfloat)
    (genes : list string) (st : plot_groups)
    (Hloop : gene_plot_loop d u dictRatioParGene 1 genes (mkGroups [] [] [] [])
             = Ok st) :
  (forall g,
      In g (keys (dictSticks st)) <->
      In g genes /\
      exists r, get g dictRatioParGene = Some r /\
                ~ In g listeGeneNonInterets /\
                (flt r d = true \/ fge r u = true)) /\
  (forall g x,
      get g (dictSticks st) = Some x ->
      exists i, x = S i /\ nth_error genes i = Some g).
Proof.
  destruct (gene_plot_loop_sticks d u dictRatioParGene _ _ _ _ Hloop)
    as [H1 H2].
  split.
  - intros g. rewrite H1. simpl.
    assert (Hl : forall r, gene_labelled d u g r = true <->
                           ~ In g listeGeneNonInterets /\
                           (flt r d = true \/ fge r u = true)).
    { intros r. unfold gene_labelled, non_interet.
      rewrite Bool.andb_true_iff, Bool.negb_true_iff, Bool.orb_true_iff,
        <- Bool.not_true_iff_false, str_in_In. tauto. }
    split.
    + intros [[]|(Hg & r & Hr & Hlab)]. split; [exact Hg|].
      exists r. split; [exact Hr|]. now apply Hl.
    + intros (Hg & r & Hr & Hlab). right. split; [exact Hg|].
      exists r. split; [exact Hr|]. now apply Hl.
  - intros g x Hx. destruct (H2 g x Hx) as [Hg|(i & -> & Hi)].
    + discriminate.
    + eauto.
Qed.

Lemma gene_plot_labels_witness :
  gene_plot_loop (F (1 # 2)) (F (176 # 100))
    [("G1", F (3 # 10)); ("PENTA", F (3 # 10)); ("G2", F 1)] 1
    ["G1"; "PENTA"; "G2"] (mkGroups [] [] [] []) =
  Ok (mkGroups [(1%nat, F (3 # 10))] [] [(3%nat, F 1)] [("G1", 1%nat)]) /\
  (In "G1" (keys [("G1", 1%nat)]) <->
   In "G1" ["G1"; "PENTA"; "G2"] /\
   exists r, get "G1" [("G1", F (3 # 10)); ("PENTA", F (3 # 10)); ("G2", F 1)]
             = Some r /\
             ~ In "G1" listeGeneNonInterets /\
             (flt r (F (1 # 2)) = true \/ fge r (F (176 # 100)) = true)).
Proof.
  assert (Hloop : gene_plot_loop (F (1 # 2)) (F (176 # 100))
                    [("G1", F (3 # 10)); ("PENTA", F (3 # 10)); ("G2", F 1)] 1
                    ["G1"; "PENTA"; "G2"] (mkGroups [] [] [] []) =
                  Ok (mkGroups [(1%nat, F (3 # 10))] [] [(3%nat, F 1)]
                        [("G1", 1%nat)])) by reflexivity.
  split; [exact Hloop|].
  exact (proj1 (gene_plot_labels _ _ _ _ _ Hloop) "G1").
Defined.

(** ** User preferences *)

(** X15.  Saving preferences into a file that is absent or holds an object
    returns, and what is loaded afterwards has, for every key saved, the
    value saved last, and for every other key the value it had before; a
    file that cannot be parsed makes saving raise and is left as it is. *)
Theorem saved_prefs_are_loaded :
  (forall prefs file old_prefs,
      load_user_prefs file = Ok old_prefs ->
      exists new_prefs,
        save_user_prefs prefs file = (Ok tt, JsonObject new_prefs) /\
        load_user_prefs (JsonObject new_prefs) = Ok new_prefs /\
        forall k,
          get k new_prefs =
          match List.find (fun kv => String.eqb k (fst kv)) (rev prefs) with
          | Some kv => Some (snd kv)
          | None => get k old_prefs
          end) /\
  (forall prefs file e,
      load_user_prefs file = Raise e ->
      save_user_prefs prefs file = (Raise e, file)).
Proof.
  split.
  - intros prefs file old H.
    exists (dict_update old prefs). split; [|split; [reflexivity|]].
    + destruct file; simpl in *; inversion H; subst; reflexivity.
    + intros k. unfold dict_update. apply (fold_left_set_get fst snd).
  - intros prefs file e H. destruct file; simpl in *; inversion H; subst.
    reflexivity.
Qed.

(** ** The window *)

Section WindowFacts.

Variable isdir isfile : string -> bool.
Variable path_join : string -> string -> string.
Variable compiled : bool.
Variable argv0 executable : string.

Lemma save_prefs_one (k v : string) (w : MainWindow) (old_prefs : dict string) :
  load_user_prefs (user_prefs w) = Ok old_prefs ->
  save_prefs [(k, v)] w =
  (Ok tt, with_user_prefs (JsonObject (set k v old_prefs)) w).
Proof.
  unfold save_prefs. destruct (user_prefs w); simpl; intros H;
    inversion H; subst; reflexivity.
Qed.

Lemma save_prefs_fields (prefs : dict string) (w : MainWindow) :
  let w' := snd (save_prefs prefs w) in
  _refdir w' = _refdir w /\ _workdir w' = _workdir w /\
  _last_zip w' = _last_zip w /\ run_name w' = run_name w /\
  wait_mode w' = wait_mode w /\ process_running w' = process_running w /\
  connections w' = connections w /\ shown w' = shown w.
Proof.
  unfold save_prefs. destruct (save_user_prefs prefs (user_prefs w)).
  simpl. repeat split.
Qed.

End WindowFacts.

(** X16.  A reference directory chosen in the window is the reference
    directory of the next session, the working directory and the last
    archive of the next session being those of the file before; a choice
    that is empty or no directory changes neither the window's directories
    nor the file. *)
Theorem chosen_refdir_persists (isdir : string -> bool) (refdir : string)
    (w : MainWindow) (old_prefs : dict string)
    (Hfile : load_user_prefs (user_prefs w) = Ok old_prefs) :
  ((refdir <> EmptyString /\ isdir refdir = true) ->
   exists w' next,
     select_refdir isdir refdir w = (Ok tt, w') /\
     _refdir w' = Some refdir /\
     MainWindow_init (user_prefs w') = Ok next /\
     _refdir next = Some refdir /\
     _workdir next = get "workdir" old_prefs /\
     _last_zip next = get "last_zip" old_prefs) /\
  ((refdir = EmptyString \/ isdir refdir = false) ->
   exists w',
     select_refdir isdir refdir w = (Ok tt, w') /\
     _refdir w' = _refdir w /\ _workdir w' = _workdir w /\
     user_prefs w' = user_prefs w /\
     shown w' = Invalid_refdir (_refdir w) :: shown w).
Proof.
  unfold select_refdir. split.
  - intros [Hne Hdir]. rewrite Hdir.
    destruct (String.eqb_spec refdir EmptyString); [contradiction|].
    cbn [negb andb]. unfold gbind, modify.
    rewrite (save_prefs_one "refdir" refdir _ old_prefs) by exact Hfile.
    eexists _, _. split; [reflexivity|]. split; [reflexivity|].
    split; [reflexivity|]. simpl. rewrite !get_set. simpl. auto.
  - intros Hbad.
    assert (Hc : (negb (String.eqb refdir EmptyString) && isdir refdir)%bool
                 = false).
    { destruct Hbad as [-> | ->]; [reflexivity | apply Bool.andb_false_r]. }
    rewrite Hc. eexists. split; [reflexivity|]. simpl. auto.
Qed.

Lemma chosen_refdir_persists_witness :
  load_user_prefs (JsonObject [("workdir", "/w")]) = Ok [("workdir", "/w")] /\
  exists w' next,
    select_refdir (fun _ => true) "/ref"
      (mkWindow None (Some "/w") None EmptyString false false 0
         (JsonObject [("workdir", "/w")]) []) = (Ok tt, w') /\
    MainWindow_init (user_prefs w') = Ok next /\
    _refdir next = Some "/ref" /\ _workdir next = Some "/w".
Proof.
  assert (H : load_user_prefs
                (user_prefs (mkWindow None (Some "/w") None EmptyString false
                               false 0 (JsonObject [("workdir", "/w")]) [])) =
              Ok [("workdir", "/w")]) by reflexivity.
  split; [exact H|].
  destruct (proj1 (chosen_refdir_persists (fun _ => true) "/ref" _ _ H))
    as (w' & next & H1 & _ & H2 & H3 & H4 & _).
  { split; [discriminate | reflexivity]. }
  exists w', next. auto.
Defined.

Ltac break_method H :=
  repeat match type of H with
         | context [match ?x with _ => _ end] =>
             lazymatch x with
             | context [match _ with _ => _ end] => fail
             | _ => destruct x eqn:?; cbn in H
             end
         end.

Lemma run_script_cases (isdir isfile : string -> bool)
    (path_join : string -> string -> string) (compiled : bool)
    (argv0 executable : string) (a : answers) (w : MainWindow) :
  let w' := snd (run_script isdir isfile path_join compiled argv0 executable a w) in
  (process_running w = true -> w' = show Already_running w) /\
  (process_running w = false -> process_running w' = true ->
   exists refdir workdir,
     _refdir w' = Some refdir /\ _workdir w' = Some workdir /\
     ans_zip a <> EmptyString /\ isfile (ans_zip a) = true /\
     ans_name a <> EmptyString /\ ans_started a = true /\
     _last_zip w' = Some (ans_zip a) /\
     wait_mode w' = true /\
     connections w' = S (connections w) /\
     shown w' =
     Running_script (if compiled then argv0 else executable)
       ((if compiled then [] else [argv0]) ++
        ["--refdir"; refdir; "--workdir"; path_join workdir (ans_name a);
         ans_zip a]) :: shown w).
Proof.
  intros w'. split.
  - intros Hr. subst w'. unfold run_script, gbind, read. rewrite Hr. reflexivity.
  - intros Hbefore Hafter.
    destruct (run_script isdir isfile path_join compiled argv0 executable a w)
      as [r w1] eqn:Hrun.
    subst w'. cbn [snd] in *.
    destruct w as [rd wd lz rn wm pr cn up sh]. cbn in Hbefore. subst pr.
    unfold run_script, select_refdir, select_workdir, start_process,
      save_prefs, save_user_prefs, gbind, gret, read, modify in Hrun.
    cbn in Hrun.
    break_method Hrun;
      inversion Hrun; subst; cbn in Hafter; try congruence;
      repeat match goal with
             | H : (_ || _)%bool = false |- _ =>
                 apply Bool.orb_false_iff in H; destruct H
             | H : negb _ = false |- _ => apply Bool.negb_false_iff in H
             | H : String.eqb _ _ = false |- _ => apply String.eqb_neq in H
             end;
      cbn; eexists _, _;
      repeat (split; [try reflexivity; try assumption|]);
      try reflexivity; try assumption.
Qed.

(** X17.  [run_script] starts the process only when it is not running, both
    directories are set, the archive chosen is an existing file and the name
    of the run is not empty; the process then gets the reference directory,
    the working directory joined with the name of the run, and the archive,
    and no threshold; the archive is remembered and the window waits.
    While the process is running, [run_script] only shows a message. *)
Theorem run_script_starts_when_ready (isdir isfile : string -> bool)
    (path_join : string -> string -> string) (compiled : bool)
    (argv0 executable : string) (a : answers) (w : MainWindow) :
  let w' := snd (run_script isdir isfile path_join compiled argv0 executable a w) in
  (process_running w = true -> w' = show Already_running w) /\
  (process_running w = false -> process_running w' = true ->
   exists refdir workdir,
     _refdir w' = Some refdir /\ _workdir w' = Some workdir /\
     ans_zip a <> EmptyString /\ isfile (ans_zip a) = true /\
     ans_name a <> EmptyString /\ ans_started a = true /\
     _last_zip w' = Some (ans_zip a) /\
     wait_mode w' = true /\
     connections w' = S (connections w) /\
     shown w' =
     Running_script (if compiled then argv0 else executable)
       ((if compiled then [] else [argv0]) ++
        ["--refdir"; refdir; "--workdir"; path_join workdir (ans_name a);
         ans_zip a]) :: shown w).
Proof. apply run_script_cases. Qed.

Lemma call_slots_effect (returncode : Z) :
  forall n w,
    let w' := snd (call_slots n returncode w) in
    shown w' = repeat (result_message returncode) n ++ shown w /\
    wait_mode w' = match n with O => wait_mode w | S _ => false end /\
    process_running w' = process_running w /\
    connections w' = connections w /\
    _refdir w' = _refdir w /\ _workdir w' = _workdir w /\
    _last_zip w' = _last_zip w /\ user_prefs w' = user_prefs w.
Proof.
  induction n as [|n IH]; intros w; cbn.
  - repeat split.
  - unfold gbind, on_worker_finished, modify. cbn.
    set (w1 := with_wait_mode false (show _ w)).
    destruct (IH w1) as (H1 & H2 & H3 & H4 & H5 & H6 & H7 & H8).
    rewrite H1, H2, H3, H4, H5, H6, H7, H8. subst w1. cbn.
    repeat split.
    + fold (result_message returncode).
      change (result_message returncode :: shown w)
        with ([result_message returncode] ++ shown w).
      rewrite app_assoc. f_equal.
      clear. induction n; simpl; congruence.
    + now destruct n.
Qed.

(** X18.  In every window a session can reach, the window waits (button
    hidden, progress bar shown) exactly while the process is running, and a
    running process has a slot connected to its end. *)
Theorem window_waits_while_running (isdir isfile : string -> bool)
    (path_join : string -> string -> string) (compiled : bool)
    (argv0 executable : string) (w : MainWindow)
    (Hreach : reachable isdir isfile path_join compiled argv0 executable w) :
  wait_mode w = process_running w /\
  (process_running w = true -> (1 <= connections w)%nat).
Proof.
  induction Hreach as [file w Hinit|w refdir _ IH|w workdir _ IH|w a _ IH
                      |w returncode _ IH Hrun].
  - unfold MainWindow_init in Hinit.
    destruct (load_user_prefs file); inversion Hinit; subst. cbn.
    split; [reflexivity | discriminate].
  - destruct (select_refdir isdir refdir w) as [r w1] eqn:Hm. cbn [snd].
    destruct w as [rd wd lz rn wm pr cn up sh]. cbn in IH.
    unfold select_refdir, save_prefs, save_user_prefs, gbind, gret, read,
      modify in Hm.
    cbn in Hm. break_method Hm; inversion Hm; subst; cbn; exact IH.
  - destruct (select_workdir isdir workdir w) as [r w1] eqn:Hm. cbn [snd].
    destruct w as [rd wd lz rn wm pr cn up sh]. cbn in IH.
    unfold select_workdir, save_prefs, save_user_prefs, gbind, gret, read,
      modify in Hm.
    cbn in Hm. break_method Hm; inversion Hm; subst; cbn; exact IH.
  - destruct (run_script isdir isfile path_join compiled argv0 executable a w)
      as [r w1] eqn:Hm. cbn [snd].
    destruct w as [rd wd lz rn wm pr cn up sh]. cbn in IH.
    unfold run_script, select_refdir, select_workdir, start_process,
      save_prefs, save_user_prefs, gbind, gret, read, modify in Hm.
    cbn in Hm.
    break_method Hm; inversion Hm; subst; cbn; try exact IH;
      split; try reflexivity; try lia; try (destruct IH; congruence).
  - destruct IH as [_ IHc]. specialize (IHc Hrun).
    unfold process_finished, gbind, modify, read. cbn.
    destruct (call_slots_effect returncode (connections w)
                (with_process_running false w))
      as (_ & H2 & H3 & _).
    cbn in H2, H3. rewrite H2, H3.
    destruct (connections w); [lia|]. split; [reflexivity | discriminate].
Qed.

Lemma window_waits_while_running_witness :
  reachable (fun _ => true) (fun _ => true) (fun a b => (a ++ "/" ++ b)%string)
    false "cnv.py" "python3"
    (snd (run_script (fun _ => true) (fun _ => true)
            (fun a b => (a ++ "/" ++ b)%string) false "cnv.py" "python3"
            (mkAnswers "/ref" "/work" "/in.zip" "run1" true)
            (mkWindow None None None EmptyString false false 0 NoFile []))) /\
  wait_mode
    (snd (run_script (fun _ => true) (fun _ => true)
            (fun a b => (a ++ "/" ++ b)%string) false "cnv.py" "python3"
            (mkAnswers "/ref" "/work" "/in.zip" "run1" true)
            (mkWindow None None None EmptyString false false 0 NoFile []))) =
  true.
Proof.
  assert (H : reachable (fun _ => true) (fun _ => true)
                (fun a b => (a ++ "/" ++ b)%string) false "cnv.py" "python3"
                (snd (run_script (fun _ => true) (fun _ => true)
                        (fun a b => (a ++ "/" ++ b)%string) false "cnv.py"
                        "python3"
                        (mkAnswers "/ref" "/work" "/in.zip" "run1" true)
                        (mkWindow None None None EmptyString false false 0
                           NoFile [])))).
  { apply reach_run_script. apply (reach_init _ _ _ _ _ _ NoFile). reflexivity. }
  split; [exact H|].
  exact (proj1 (window_waits_while_running _ _ _ _ _ _ _ H)).
Defined.

(** X19.  The slot that reports the end of the script is connected anew at
    every start: when a run started from a window with [n] connections
    finishes, the result is shown [n + 1] times, and the window leaves the
    waiting mode. *)
Theorem result_shown_once_per_start (isdir isfile : string -> bool)
    (path_join : string -> string -> string) (compiled : bool)
    (argv0 executable : string) (a : answers) (returncode : Z)
    (w : MainWindow)
    (Hbefore : process_running w = false)
    (Hstarted :
       process_running
         (snd (run_script isdir isfile path_join compiled argv0 executable a w))
       = true) :
  let w1 := snd (run_script isdir isfile path_join compiled argv0 executable a w) in
  let w2 := snd (process_finished returncode w1) in
  connections w1 = S (connections w) /\
  shown w2 =
  repeat (result_message returncode) (S (connections w)) ++ shown w1 /\
  process_running w2 = false /\ wait_mode w2 = false.
Proof.
  intros w1 w2.
  destruct (proj2 (run_script_cases isdir isfile path_join compiled
                     argv0 executable a w) Hbefore Hstarted)
    as (rd & wd & _ & _ & _ & _ & _ & _ & _ & _ & Hc & _).
  fold w1 in Hc. split; [exact Hc|].
  subst w2. unfold process_finished, gbind, modify, read. cbn.
  destruct (call_slots_effect returncode (connections w1)
              (with_process_running false w1))
    as (H1 & H2 & H3 & _).
  cbn in H1, H2, H3. rewrite H1, H2, H3, Hc. repeat split.
Qed.

Lemma result_shown_once_per_start_witness :
  process_running (mkWindow None None None EmptyString false false 0 NoFile [])
  = false /\
  shown
    (snd (process_finished 0
            (snd (run_script (fun _ => true) (fun _ => true)
                    (fun a b => (a ++ "/" ++ b)%string) false "cnv.py"
                    "python3"
                    (mkAnswers "/ref" "/work" "/in.zip" "run1" true)
                    (mkWindow None None None EmptyString false false 0
                       NoFile []))))) =
  [Script_succeeded;
   Running_script "python3"
     ["cnv.py"; "--refdir"; "/ref"; "--workdir"; "/work/run1"; "/in.zip"]].
Proof.
  assert (Hb : process_running
                 (mkWindow None None None EmptyString false false 0 NoFile [])
               = false) by reflexivity.
  split; [exact Hb|].
  exact (proj1 (proj2 (result_shown_once_per_start (fun _ => true)
                         (fun _ => true) (fun a b => (a ++ "/" ++ b)%string)
                         false "cnv.py" "python3"
                         (mkAnswers "/ref" "/work" "/in.zip" "run1" true) 0 _
                         Hb eq_refl))).
Defined.

(** ** Points of the amplicon plot *)

Lemma in_combine_seq_nth {A : Type} (l : list A) (n : nat) (a : A) :
  forall i,
    In (n, a) (combine (seq i (List.length l)) l) <->
    (i <= n)%nat /\ nth_error l (n - i) = Some a.
Proof.
  induction l as [|b l IH]; simpl; intros i.
  - split; [contradiction|]. intros [_ H]. destruct (n - i)%nat; discriminate.
  - rewrite IH. split.
    + intros [Heq|[Hle Hn]].
      * inversion Heq; subst. rewrite Nat.sub_diag. auto.
      * split; [lia|]. replace (n - i)%nat with (S (n - S i)) by lia. exact Hn.
    + intros [Hle Hn]. destruct (Nat.eq_dec i n) as [->|Hne].
      * rewrite Nat.sub_diag in Hn. simpl in Hn. left. congruence.
      * right. split; [lia|].
        replace (n - i)%nat with (S (n - S i)) in Hn by lia. exact Hn.
Qed.

(** X20.  A point of the amplicon plot stands in the group of its branch:
    the point (position, ratio) is in a group iff the amplicon at that
    position of the ordered list, counted from 1, has this ratio and the
    threshold rule gives the group.  An amplicon of the list without ratio
    gives no point, and no exception. *)
Theorem amp_plot_points (d u : pyfloat) (dictRatio : dict Q)
    (c : Classification) (items : list string) (var : nat) (r : Q) :
  In (var, r) (amp_plot_group d u dictRatio c items) <->
  exists item,
    (1 <= var)%nat /\ nth_error items (var - 1) = Some item /\
    In (item, r) dictRatio /\ classify (F r) d u = c.
Proof.
  unfold amp_plot_group. rewrite in_flat_map. split.
  - intros ([n item] & Hp & Hin). apply in_map_iff in Hin.
    destruct Hin as ([k j] & Heq & Hf). apply filter_In in Hf.
    destruct Hf as [Hd Hc]. simpl in *. inversion Heq; subst.
    apply Bool.andb_true_iff in Hc. destruct Hc as [Hk Hc].
    apply String.eqb_eq in Hk. subst k.
    apply in_combine_seq_nth in Hp. destruct Hp as [Hle Hn].
    exists item. repeat split; auto.
    destruct (classify (F r) d u), c; congruence.
  - intros (item & Hle & Hn & Hd & Hc).
    exists (var, item). split; [apply in_combine_seq_nth; auto|].
    apply in_map_iff. exists (item, r). split; [reflexivity|].
    apply filter_In. split; [exact Hd|]. simpl.
    rewrite String.eqb_refl, Hc. now destruct c.
Qed.

(** ** Coverage matrix of a run *)

Lemma matrix_column_keys (genes : dict string) (pat : dict cell) :
  forall amps col,
    matrix_column genes pat amps = Ok col -> map fst col = amps.
Proof.
  induction amps as [|a amps IH]; simpl; intros col H.
  - inversion H. reflexivity.
  - destruct (lookup a genes); simpl in H; [|discriminate].
    destruct (lookup a pat) as [c|]; simpl in H; [|discriminate].
    destruct (py_int c) as [n|]; simpl in H; [|discriminate].
    destruct (matrix_column genes pat amps) as [col'|]; simpl in H;
      [|discriminate].
    inversion H; subst. simpl. now rewrite (IH col' eq_refl).
Qed.

(** X21.  A coverage matrix that could be built has one column per
    patient, in the order of the patients and under their names, and every
    column has the amplicons of the panel, in the order of the panel. *)
Theorem matrix_aligned_with_panel (genes : dict string) (amps : list string)
    (patients : list (string * list (string * cell)))
    (matrix : list (string * list (string * Z)))
    (Hok : build_matrix genes amps patients = Ok matrix) :
  map fst matrix = map fst patients /\
  Forall (fun column => map fst (snd column) = amps) matrix.
Proof.
  revert matrix Hok.
  induction patients as [|[name rows] patients IH]; simpl; intros matrix H.
  - inversion H. split; constructor.
  - destruct (matrix_column genes (dictPatientEnCours rows) amps) as [col|] eqn:Ec;
      simpl in H; [|discriminate].
    destruct (build_matrix genes amps patients) as [cols|]; simpl in H;
      [|discriminate].
    inversion H; subst. destruct (IH cols eq_refl) as [IH1 IH2].
    simpl. rewrite IH1. split; [reflexivity|].
    constructor; [|exact IH2]. simpl. now apply matrix_column_keys in Ec.
Qed.

Lemma matrix_aligned_with_panel_witness :
  build_matrix (dictAmpliGene (fichierListeOrdonnee run_G1))
    (listOrdonneeAMP (fichierListeOrdonnee run_G1)) (rawData run_G1) =
  Ok [("P1", [("G1_a", 10); ("G1_b", 30)])] /\
  map fst [("P1", [("G1_a", 10); ("G1_b", 30)])] = map fst (rawData run_G1).
Proof.
  assert (H : build_matrix (dictAmpliGene (fichierListeOrdonnee run_G1))
                (listOrdonneeAMP (fichierListeOrdonnee run_G1))
                (rawData run_G1) =
              Ok [("P1", [("G1_a", 10); ("G1_b", 30)])]) by reflexivity.
  split; [exact H|].
  exact (proj1 (matrix_aligned_with_panel _ _ _ _ H)).
Defined.

(** ** Order of the two levels in a run *)









(** ** When a run returns *)







(** ** When the normalisation fails *)




